(** * sku: the Shopify webhook receiver of [main.go]

    A shallow embedding of [src/main.go]: the in-memory catalog
    ([MemConnection], [MemDatabase]), the matching service
    ([Services.Webhook]) and the [POST /webhook] handler with its
    signature check, followed by the properties of the specification
    that concern them.

    Conventions.
    - A Go [string] is a [string] (a sequence of 8-bit characters), a
      [[]byte] is a [list byte]; the conversion [[]byte(s)] is
      [list_byte_of_string].
    - A [uint32] is a [Z] kept below [2^32] by [u32].
    - A Go [error] is an [option Err]; [nil] is [None].
    - Side effects are threaded through a state monad over [World]: the
      catalog connection held by the service and the trace of what the
      program did (lines written to standard output, calls that reached
      [Services.Webhook]).
    - The packages the program imports ([crypto/sha256], [crypto/hmac],
      [encoding/base64]) are written out from their definitions (FIPS
      180-4, RFC 2104, RFC 4648); fiber's [BodyParser] is a parameter of
      the handler. *)

From Stdlib Require Import ZArith List Strings.String Strings.Ascii Strings.Byte Lia.
From stdpp Require Import base gmap strings list.
Import ListNotations.

Local Open Scope Z_scope.

(** ** Bytes and 32-bit words *)

Abbreviation bytes := (list byte).

(** [[]byte(s)] and [string(b)]. *)
Definition bytes_of (s : string) : bytes := list_byte_of_string s.
Definition string_of (b : bytes) : string := string_of_list_byte b.

Definition byte_to_Z (b : byte) : Z := Z.of_N (Byte.to_N b).

(** [byte(x)]: the conversion keeps the low eight bits. *)
Definition byte_of_Z (x : Z) : byte :=
  match Byte.of_N (Z.to_N (x mod 256)) with
  | Some b => b
  | None => x00
  end.

(** [uint32] arithmetic wraps around. *)
Definition u32 (x : Z) : Z := x mod 2 ^ 32.

Module sha256.

Definition Size : nat := 32.
Definition BlockSize : nat := 64.
Definition chunk : nat := 64.

Definition init : list Z :=
  [ 0x6a09_e667; 0xbb67_ae85; 0x3c6e_f372; 0xa54f_f53a;
    0x510e_527f; 0x9b05_688c; 0x1f83_d9ab; 0x5be0_cd19 ].

Definition _K : list Z :=
  [ 0x428a_2f98; 0x7137_4491; 0xb5c0_fbcf; 0xe9b5_dba5;
    0x3956_c25b; 0x59f1_11f1; 0x923f_82a4; 0xab1c_5ed5;
    0xd807_aa98; 0x1283_5b01; 0x2431_85be; 0x550c_7dc3;
    0x72be_5d74; 0x80de_b1fe; 0x9bdc_06a7; 0xc19b_f174;
    0xe49b_69c1; 0xefbe_4786; 0x0fc1_9dc6; 0x240c_a1cc;
    0x2de9_2c6f; 0x4a74_84aa; 0x5cb0_a9dc; 0x76f9_88da;
    0x983e_5152; 0xa831_c66d; 0xb003_27c8; 0xbf59_7fc7;
    0xc6e0_0bf3; 0xd5a7_9147; 0x06ca_6351; 0x1429_2967;
    0x27b7_0a85; 0x2e1b_2138; 0x4d2c_6dfc; 0x5338_0d13;
    0x650a_7354; 0x766a_0abb; 0x81c2_c92e; 0x9272_2c85;
    0xa2bf_e8a1; 0xa81a_664b; 0xc24b_8b70; 0xc76c_51a3;
    0xd192_e819; 0xd699_0624; 0xf40e_3585; 0x106a_a070;
    0x19a4_c116; 0x1e37_6c08; 0x2748_774c; 0x34b0_bcb5;
    0x391c_0cb3; 0x4ed8_aa4a; 0x5b9c_ca4f; 0x682e_6ff3;
    0x748f_82ee; 0x78a5_636f; 0x84c8_7814; 0x8cc7_0208;
    0x90be_fffa; 0xa450_6ceb; 0xbef9_a3f7; 0xc671_78f2 ].

(** [bits.RotateLeft32(x, -n)] *)
Definition rotr (n x : Z) : Z :=
  Z.lor (Z.shiftr x n) (u32 (Z.shiftl x (32 - n))).

(** [^x] on a [uint32] *)
Definition not32 (x : Z) : Z := Z.lxor x 0xFFFFFFFF.

Definition add32 (x y : Z) : Z := u32 (x + y).

(** Big-endian load of four bytes. *)
Definition be32 (b0 b1 b2 b3 : byte) : Z :=
  Z.lor (Z.lor (Z.shiftl (byte_to_Z b0) 24) (Z.shiftl (byte_to_Z b1) 16))
        (Z.lor (Z.shiftl (byte_to_Z b2) 8) (byte_to_Z b3)).

(** The sixteen words [w[0..15]] of a chunk. *)
Fixpoint load_words (n : nat) (p : bytes) : list Z :=
  match n, p with
  | S n', b0 :: b1 :: b2 :: b3 :: rest => be32 b0 b1 b2 b3 :: load_words n' rest
  | _, _ => []
  end.

(** The schedule is kept newest word first: after [i] words are known,
    [w[i-k]] is at index [k-1]. *)
Definition schedule_step (rw : list Z) : list Z :=
  let v1 := nth 1 rw 0 in
  let t1 := Z.lxor (Z.lxor (rotr 17 v1) (rotr 19 v1)) (Z.shiftr v1 10) in
  let v2 := nth 14 rw 0 in
  let t2 := Z.lxor (Z.lxor (rotr 7 v2) (rotr 18 v2)) (Z.shiftr v2 3) in
  add32 (add32 (add32 t1 (nth 6 rw 0)) t2) (nth 15 rw 0) :: rw.

Definition schedule (p : bytes) : list Z :=
  rev (Nat.iter 48 schedule_step (rev (load_words 16 p))).

Record regs := Regs { ra : Z; rb : Z; rc : Z; rd : Z; re : Z; rf : Z; rg : Z; rh : Z }.

Definition round (r : regs) (kw : Z * Z) : regs :=
  let '(Regs a b c d e f g h) := r in
  let t1 := add32 (add32 (add32 (add32 h
              (Z.lxor (Z.lxor (rotr 6 e) (rotr 11 e)) (rotr 25 e)))
              (Z.lxor (Z.land e f) (Z.land (not32 e) g)))
              (fst kw)) (snd kw) in
  let t2 := add32 (Z.lxor (Z.lxor (rotr 2 a) (rotr 13 a)) (rotr 22 a))
                  (Z.lxor (Z.lxor (Z.land a b) (Z.land a c)) (Z.land b c)) in
  Regs (add32 t1 t2) a b c (add32 d t1) e f g.

Definition regs_of (h : list Z) : regs :=
  Regs (nth 0 h 0) (nth 1 h 0) (nth 2 h 0) (nth 3 h 0)
       (nth 4 h 0) (nth 5 h 0) (nth 6 h 0) (nth 7 h 0).

Definition list_of (r : regs) : list Z :=
  [ra r; rb r; rc r; rd r; re r; rf r; rg r; rh r].

(** One iteration of the loop of [blockGeneric] on the chunk at the head of [p]. *)
Definition block1 (h : list Z) (p : bytes) : list Z :=
  let r := fold_left round (combine _K (schedule p)) (regs_of h) in
  map (fun xy => add32 (fst xy) (snd xy)) (combine h (list_of r)).

(** [blockGeneric]: [for len(p) >= chunk { ...; p = p[chunk:] }];
    [n] bounds the number of chunks. *)
Fixpoint block (n : nat) (h : list Z) (p : bytes) : list Z :=
  match n with
  | O => h
  | S n' =>
      if (chunk <=? length p)%nat
      then block n' (block1 h p) (skipn chunk p)
      else h
  end.

(** Big-endian store of the low [n] bytes of [x]. *)
Fixpoint be_bytes (n : nat) (x : Z) : bytes :=
  match n with
  | O => []
  | S n' => byte_of_Z (Z.shiftr x (8 * Z.of_nat n')) :: be_bytes n' x
  end.

(** [checkSum]: a 0x80 byte, zeroes up to 56 modulo 64, then the bit
    length on eight bytes. *)
Definition pad (msg : bytes) : bytes :=
  let len := length msg in
  let t := (len mod 64)%nat in
  let zeros := if (t <? 56)%nat then (56 - 1 - t)%nat else (64 + 56 - 1 - t)%nat in
  msg ++ x80 :: repeat x00 zeros ++ be_bytes 8 (Z.of_nat len * 8).

(** [sha256.Sum256] *)
Definition Sum256 (msg : bytes) : bytes :=
  let p := pad msg in
  flat_map (be_bytes 4) (block (length p / chunk) init p).

End sha256.

Module hmac.

(** The state of an HMAC under construction: the two padded keys and
    what has been written to the inner hash after [ipad]. *)
Record HMAC := mkHMAC { opad : bytes; ipad : bytes; inner : bytes }.

Definition xor_byte (c : Z) (b : byte) : byte := byte_of_Z (Z.lxor (byte_to_Z b) c).

(** [hmac.New(sha256.New, key)] *)
Definition New (key : bytes) : HMAC :=
  let blocksize := sha256.BlockSize in
  let key := if (blocksize <? length key)%nat then sha256.Sum256 key else key in
  let padded := key ++ repeat x00 (blocksize - length key) in
  mkHMAC (map (xor_byte 0x5c) padded) (map (xor_byte 0x36) padded) [].

(** [h.Write(p)] *)
Definition Write (h : HMAC) (p : bytes) : HMAC :=
  mkHMAC (opad h) (ipad h) (inner h ++ p).

(** [h.Sum(nil)] *)
Definition Sum (h : HMAC) : bytes :=
  sha256.Sum256 (opad h ++ sha256.Sum256 (ipad h ++ inner h)).

(** [subtle.ConstantTimeCompare]: the accumulator [v] of
    [v |= x[i] ^ y[i]]. *)
Fixpoint xor_acc (v : Z) (x y : bytes) : Z :=
  match x, y with
  | a :: x', b :: y' => xor_acc (Z.lor v (Z.lxor (byte_to_Z a) (byte_to_Z b))) x' y'
  | _, _ => v
  end.

Definition ConstantTimeCompare (x y : bytes) : Z :=
  if negb (length x =? length y)%nat then 0
  else if xor_acc 0 x y =? 0 then 1 else 0.

(** [hmac.Equal] *)
Definition Equal (mac1 mac2 : bytes) : bool :=
  ConstantTimeCompare mac1 mac2 =? 1.

End hmac.

Module base64.

Definition encodeStd : string :=
  "ABCDEFGHIJKLMNOPQRSTUVWXYZabcdefghijklmnopqrstuvwxyz0123456789+/".

Definition StdPadding : ascii := "="%char.

Definition sextet (v : Z) : ascii :=
  match String.get (Z.to_nat (Z.land v 0x3F)) encodeStd with
  | Some c => c
  | None => StdPadding
  end.

(** [StdEncoding.EncodeToString] *)
Fixpoint EncodeToString (src : bytes) : string :=
  match src with
  | [] => EmptyString
  | [b0] =>
      let v := Z.shiftl (byte_to_Z b0) 16 in
      String (sextet (Z.shiftr v 18)) (String (sextet (Z.shiftr v 12))
        (String StdPadding (String StdPadding EmptyString)))
  | [b0; b1] =>
      let v := Z.lor (Z.shiftl (byte_to_Z b0) 16) (Z.shiftl (byte_to_Z b1) 8) in
      String (sextet (Z.shiftr v 18)) (String (sextet (Z.shiftr v 12))
        (String (sextet (Z.shiftr v 6)) (String StdPadding EmptyString)))
  | b0 :: b1 :: b2 :: rest =>
      let v := Z.lor (Z.lor (Z.shiftl (byte_to_Z b0) 16) (Z.shiftl (byte_to_Z b1) 8))
                     (byte_to_Z b2) in
      String (sextet (Z.shiftr v 18)) (String (sextet (Z.shiftr v 12))
        (String (sextet (Z.shiftr v 6)) (String (sextet v) (EncodeToString rest))))
  end.

End base64.

(** Hexadecimal rendering of a digest, for the test vectors. *)
Definition hex_digit (v : Z) : ascii :=
  match String.get (Z.to_nat (Z.land v 0xF)) "0123456789abcdef" with
  | Some c => c
  | None => "0"%char
  end.

Fixpoint hex (b : bytes) : string :=
  match b with
  | [] => EmptyString
  | x :: rest =>
      String (hex_digit (Z.shiftr (byte_to_Z x) 4)) (String (hex_digit (byte_to_Z x)) (hex rest))
  end.


(** ** Errors, standard output and the world *)

Local Open Scope string_scope.

(** The dynamic values an [error] holds in this program: the
    [*errorString] of [errors.New] and fiber's [*fiber.Error]. *)
Inductive Err :=
| errorString (s : string)
| fiber_Error (Code : Z) (Message : string).

(** [error]; [nil] is [None]. *)
Abbreviation error := (option Err).

Module errors.
Definition New (text : string) : error := Some (errorString text).
End errors.

(** What the program does that the outside can see, in the order it
    happens: a line on standard output, and (for the dispatch
    properties) the entry into [Services.Webhook] with its argument. *)
Inductive event :=
| Stdout (s : string)
| Call_Webhook (sku : string).

(** [type Services struct { database Connection }], over the dynamic type
    [C] of the connection. *)
Record Services (C : Type) := mkServices { database : C }.
Arguments mkServices {C} _.
Arguments database {C} _.

(** The program has one [*Services], made by [main] and captured by the
    handler; the world holds it together with the trace. *)
Record World (C : Type) := mkWorld { services : Services C; trace : list event }.
Arguments mkWorld {C} _ _.
Arguments services {C} _.
Arguments trace {C} _.

(** State passing over the world, with stdpp's monad notation. *)
Definition M (C A : Type) : Type := World C -> A * World C.

#[export] Instance M_ret {C} : MRet (M C) := fun A a w => (a, w).

#[export] Instance M_bind {C} : MBind (M C) :=
  fun A B k m w => let (a, w') := m w in k a w'.

Definition emit {C} (e : event) : M C unit :=
  fun w => (tt, mkWorld (services w) (trace w ++ [e])).

Module fmt.

(** [fmt.Sprintln]: the operands separated by spaces, then a newline. *)
Definition Sprintln (a : list string) : string :=
  String.concat " " a ++ String "010"%char EmptyString.

(** [fmt.Println] *)
Definition Println {C} (a : list string) : M C unit := emit (Stdout (Sprintln a)).

(** [fmt.Errorf("invalid method %s", m)] *)
Definition Errorf_invalid_method (m : string) : Err :=
  errorString ("invalid method " ++ m).

End fmt.

(** The notification of [Services.Webhook] for a wanted SKU, as it
    appears in the trace. *)
Definition Found (sku : string) : event := Stdout (fmt.Sprintln ["Found wanted sku:"; sku]).

(** The lines of the trace that went to standard output. *)
Definition notifications (t : list event) : list string :=
  flat_map (fun e => match e with Stdout s => [s] | Call_Webhook _ => [] end) t.

(** The arguments [Services.Webhook] was entered with. *)
Definition webhook_calls (t : list event) : list string :=
  flat_map (fun e => match e with Call_Webhook s => [s] | Stdout _ => [] end) t.

(** ** The catalog *)

(** [type Connection interface { List() ([]string, error) }]. The method
    has a pointer receiver, so a call returns the receiver too. *)
Class Connection (C : Type) := List : C -> (list string * error) * C.

(** [type MemConnection struct{}] *)
Inductive MemConnection : Set := mkMemConnection.

(** [func (c *MemConnection) List() ([]string, error)] *)
#[export] Instance MemConnection_List : Connection MemConnection :=
  fun c => ((["SKU2006-001"; "SKU2006-002"; "SKU2006-003"], None), c).

(** [type Database interface { Connect() (Connection, error); Disconnect() error }] *)
Class Database (D C : Type) := {
  Connect : D -> (C * error) * D;
  Disconnect : D -> error * D
}.

(** [type MemDatabase struct{}] *)
Inductive MemDatabase : Set := mkMemDatabase.

#[export] Instance MemDatabase_Database : Database MemDatabase MemConnection := {
  Connect db := ((mkMemConnection, None), db);
  Disconnect db := (None, db)
}.

Definition NewMemDatabase : MemDatabase * error := (mkMemDatabase, None).

(** ** The service *)

Definition NewServices {C} (connection : C) : Services C * error :=
  (mkServices connection, None).

Section Service.
Context {C : Type} `{Connection C}.

(** [s.database.List()] on the service of the world; the receiver the
    call returns replaces the one the service holds. *)
Definition database_List : M C (list string * error) :=
  fun w =>
    let (r, c') := List (database (services w)) in
    (r, mkWorld (mkServices c') (trace w)).

(** The loop [for _, s := range skus] of [Services.Webhook]. *)
Fixpoint range_skus (skus : list string) (sku : string) : M C error :=
  match skus with
  | [] => mret None
  | s :: rest =>
      if String.eqb s sku then
        (* Do something when a wanted sku is found. *)
        fmt.Println ["Found wanted sku:"; sku] ;;
        mret (errors.New "Found wanted sku")
      else range_skus rest sku
  end.

(** [func (s *Services) Webhook(sku string) error] *)
Definition Webhook (sku : string) : M C error :=
  emit (Call_Webhook sku) ;;
  '(skus, _) ← database_List ;
  range_skus skus sku.

End Service.

(** The connection of the world [w] is read without being changed, and
    the read returns [skus] with the error [e]. *)
Definition reads_catalog {C} `{Connection C} (w : World C) (skus : list string) (e : error) : Prop :=
  List (database (services w)) = ((skus, e), database (services w)).

(** The list the read number [k] returns (counting from 0) when the
    connection [c] is read again and again, each read starting from the
    receiver the one before left. *)
Definition catalog_at {C} `{Connection C} (c : C) (k : nat) : list string :=
  fst (fst (List (Nat.iter k (fun c => snd (List c)) c))).

(** The entries into [Services.Webhook] for a run of line-item SKUs. *)
Definition calls (skus : list string) : list event := map Call_Webhook skus.

(** ** The HTTP side *)

Module http.
Definition MethodGet := "GET".
Definition MethodPost := "POST".
Definition MethodPut := "PUT".
Definition MethodDelete := "DELETE".
Definition MethodPatch := "PATCH".
Definition StatusOK : Z := 200.
Definition StatusUnauthorized : Z := 401.
Definition StatusUnprocessableEntity : Z := 422.
Definition StatusInternalServerError : Z := 500.
End http.

(** The part of a [*fiber.Ctx] the handlers touch: the request headers
    as [GetReqHeaders] returns them, the raw request body, and the
    status and body of the response being built. *)
Record Ctx := mkCtx {
  GetReqHeaders : gmap string string;
  Request_Body : bytes;
  Response_Status : Z;
  Response_Body : string
}.

(** A context fresh from the server: fiber starts the response at 200. *)
Definition AcquireCtx (headers : gmap string string) (body : bytes) : Ctx :=
  mkCtx headers body http.StatusOK EmptyString.

(** [c.SendStatus(status)]: sets the status and returns [nil]. *)
Definition SendStatus (c : Ctx) (status : Z) : error * Ctx :=
  (None, mkCtx (GetReqHeaders c) (Request_Body c) status (Response_Body c)).

(** [c.SendString(body)] *)
Definition SendString (c : Ctx) (body : string) : error * Ctx :=
  (None, mkCtx (GetReqHeaders c) (Request_Body c) (Response_Status c) body).

(** The body the handler decodes into:
    [struct { LineItems []struct { Sku string `json:"sku"` } `json:"line_items"` }]. *)
Record LineItem := mkLineItem { Sku : string }.
Record Body := mkBody { LineItems : list LineItem }.

(** [type Route[C any] struct { Method string; Path string; Handler func(c C) error }] *)
Record Route (H : Type) := mkRoute { Method : string; Path : string; Handler : H }.
Arguments mkRoute {H} _ _ _.
Arguments Method {H} _.
Arguments Path {H} _.
Arguments Handler {H} _.

Definition NewHTTPRoute {H} (method path : string) (handler : H) : Route H :=
  mkRoute method path handler.

(** The loop of [NewHTTPServer] over the routes: each is registered
    under its method, and a method outside the five stops the start-up
    with an error before the server listens. The result is the table
    the server listens with. *)
Fixpoint NewHTTPServer_routes {H} (routes : list (Route H)) : Err + list (Route H) :=
  match routes with
  | [] => inr []
  | route :: rest =>
      if (String.eqb (Method route) http.MethodGet
          || String.eqb (Method route) http.MethodPost
          || String.eqb (Method route) http.MethodPut
          || String.eqb (Method route) http.MethodDelete
          || String.eqb (Method route) http.MethodPatch)%bool
      then match NewHTTPServer_routes rest with
           | inr table => inr (route :: table)
           | inl err => inl err
           end
      else inl (fmt.Errorf_invalid_method (Method route))
  end.

(** The shared secret of [main]: the constant [Signature], the empty string. *)
Definition Signature : string := EmptyString.

(** The block that guards the webhook handler (lines 151 to 160), as a
    function of the secret, the raw body and the presented signature: the
    value of [hmac.Equal([]byte(m), []byte(signature))]. *)
Definition signature_block (secret : string) (body : bytes) (signature : string) : bool :=
  let h := hmac.New (bytes_of secret) in
  let h := hmac.Write h body in
  let d := hmac.Sum h in
  let m := base64.EncodeToString d in
  hmac.Equal (bytes_of m) (bytes_of signature).

(** HMAC-SHA256 of a message under a key, through the three calls the
    handler makes: [hmac.New], [Write], [Sum]. *)
Definition HMAC_SHA256 (key msg : bytes) : bytes :=
  hmac.Sum (hmac.Write (hmac.New key) msg).

(** The signature a sender that knows [secret] computes for [body]:
    the padded standard base64 of the HMAC-SHA256. *)
Definition expected_signature (secret : string) (body : bytes) : string :=
  base64.EncodeToString (HMAC_SHA256 (bytes_of secret) body).

(** Indexing a Go [map[string]string]: the zero value when the key is
    absent. *)
Definition map_index (m : gmap string string) (k : string) : string :=
  default EmptyString (m !! k).

(** The digest is run on concrete requests only. *)
Arguments signature_block : simpl never.
Arguments expected_signature : simpl never.
Arguments HMAC_SHA256 : simpl never.
Arguments map_index : simpl never.

(** The signature a request presents. *)
Definition presented_signature (c : Ctx) : string :=
  map_index (GetReqHeaders c) "X-Shopify-Hmac-Sha256".

Section Handlers.
Context {C : Type} `{Connection C}.

(** [c.BodyParser(&body)] is fiber's; the handler is stated for any
    decoder, which either fails with an error or fills the body. *)
Variable BodyParser : Ctx -> Err + Body.

Definition handler := Ctx -> M C (error * Ctx).

(** [GET /ping] *)
Definition ping_handler : handler :=
  fun c => mret (SendString c "pong").

(** The loop [for _, lineItem := range body.LineItems] of the handler:
    the first non-nil error of [services.Webhook] is returned. *)
Fixpoint range_LineItems (items : list LineItem) : M C error :=
  match items with
  | [] => mret None
  | lineItem :: rest =>
      err ← Webhook (Sku lineItem) ;
      match err with
      | Some e => mret (Some e)
      | None => range_LineItems rest
      end
  end.

(** [POST /webhook] *)
Definition webhook_handler : handler :=
  fun c =>
    let headers := GetReqHeaders c in
    let signature := map_index headers "X-Shopify-Hmac-Sha256" in
    if negb (signature_block Signature (Request_Body c) signature) then
      mret (SendStatus c http.StatusUnauthorized)
    else
      match BodyParser c with
      | inl err => mret (Some err, c)
      | inr body =>
          err ← range_LineItems (LineItems body) ;
          match err with
          | Some e => mret (Some e, c)
          | None => mret (SendStatus c http.StatusOK)
          end
      end.

(** The [routes] of [main]. *)
Definition routes : list (Route handler) :=
  [ NewHTTPRoute http.MethodGet "/ping" ping_handler;
    NewHTTPRoute http.MethodPost "/webhook" webhook_handler ].

(** fiber's [DefaultErrorHandler], the one in force since [fiber.New()]
    is called without a configuration: the code of a [*fiber.Error],
    500 for any other error, and the error's text as the body. *)
Definition DefaultErrorHandler (c : Ctx) (err : Err) : Ctx :=
  match err with
  | fiber_Error code msg => mkCtx (GetReqHeaders c) (Request_Body c) code msg
  | errorString msg =>
      mkCtx (GetReqHeaders c) (Request_Body c) http.StatusInternalServerError msg
  end.

(** What the server answers for a request routed to [h]: the response
    the handler built when it returned [nil], the error handler's
    otherwise. *)
Definition respond (h : handler) (c : Ctx) : M C Ctx :=
  '(err, c') ← h c ;
  match err with
  | None => mret c'
  | Some e => mret (DefaultErrorHandler c' e)
  end.

End Handlers.

(** ** [main] *)

(** How [main] ends its set-up: with the value it built, or in
    [log.Fatal]. *)
Inductive startup (A : Type) :=
| Started (a : A)
| Fatal (err : Err).
Arguments Started {A} _.
Arguments Fatal {A} _.

(** The set-up of [main] up to the route table: the service the
    handlers close over. *)
Definition main_services : startup (Services MemConnection) :=
  let '(database, err) := NewMemDatabase in
  match err with
  | Some e => Fatal e
  | None =>
      let '((connection, err), _) := Connect database in
      match err with
      | Some e => Fatal e
      | None =>
          let '(services, err) := NewServices connection in
          match err with
          | Some e => Fatal e
          | None => Started services
          end
      end
  end.

(** ** A reference decoder

    The handler is stated for any [BodyParser]. To run it on concrete
    requests the decoder below is used: JSON restricted to 7-bit text
    without [\u] escapes, decoded into [Body] the way [encoding/json]
    fills the handler's struct (keys matched without regard to case,
    unknown keys skipped, [null] leaving the zero value). A repeated
    key of the struct is refused rather than decoded. *)
Module json.

#[warnings="-register-all"] Inductive value :=
| Null
| Bool (b : bool)
| Number
| Str (s : string)
| Array (elems : list value)
| Object (members : list (string * value)).

Definition quote : ascii := "034"%char.
Definition backslash : ascii := "092"%char.

Definition is_ws (c : ascii) : bool :=
  let n := nat_of_ascii c in
  ((n =? 32) || (n =? 9) || (n =? 10) || (n =? 13))%nat.

Definition is_digit (c : ascii) : bool :=
  let n := nat_of_ascii c in ((48 <=? n) && (n <=? 57))%nat.

Fixpoint skip_ws (s : string) : string :=
  match s with
  | String c r => if is_ws c then skip_ws r else s
  | EmptyString => s
  end.

Fixpoint skip_digits (s : string) : string :=
  match s with
  | String c r => if is_digit c then skip_digits r else s
  | EmptyString => s
  end.

(** One or more digits. *)
Definition digits1 (s : string) : option string :=
  match s with
  | String c r => if is_digit c then Some (skip_digits r) else None
  | EmptyString => None
  end.

Definition unescape (c : ascii) : option ascii :=
  if Ascii.eqb c quote then Some quote
  else if Ascii.eqb c backslash then Some backslash
  else if Ascii.eqb c "/" then Some "/"%char
  else if Ascii.eqb c "b" then Some "008"%char
  else if Ascii.eqb c "f" then Some "012"%char
  else if Ascii.eqb c "n" then Some "010"%char
  else if Ascii.eqb c "r" then Some "013"%char
  else if Ascii.eqb c "t" then Some "009"%char
  else None.

(** The characters of a string literal after its opening quote. *)
Fixpoint parse_chars (s : string) : option (string * string) :=
  match s with
  | EmptyString => None
  | String c r =>
      if Ascii.eqb c quote then Some (EmptyString, r)
      else if Ascii.eqb c backslash then
        match r with
        | String e r' =>
            match unescape e, parse_chars r' with
            | Some c', Some (str, rest) => Some (String c' str, rest)
            | _, _ => None
            end
        | EmptyString => None
        end
      else if ((nat_of_ascii c <? 32) || (127 <? nat_of_ascii c))%nat then None
      else
        match parse_chars r with
        | Some (str, rest) => Some (String c str, rest)
        | None => None
        end
  end.

(** A number: an optional minus, a zero or a run of digits, an
    optional fraction, an optional exponent. *)
Definition parse_number (s : string) : option string :=
  let s := match s with String "-" r => r | _ => s end in
  let int := match s with
             | String "0" r => Some r
             | _ => digits1 s
             end in
  let frac := match int with
              | Some (String "." r) => digits1 r
              | _ => int
              end in
  match frac with
  | Some (String e r) =>
      if (Ascii.eqb e "e" || Ascii.eqb e "E")%bool then
        match r with
        | String sg r' =>
            if (Ascii.eqb sg "+" || Ascii.eqb sg "-")%bool then digits1 r' else digits1 r
        | EmptyString => None
        end
      else frac
  | _ => frac
  end.

Definition literal (lit : string) (v : value) (s : string) : option (value * string) :=
  if String.prefix lit s
  then Some (v, String.substring (String.length lit) (String.length s - String.length lit) s)
  else None.

Fixpoint parse_value (fuel : nat) (s : string) : option (value * string) :=
  match fuel with
  | O => None
  | S fuel =>
      match skip_ws s with
      | EmptyString => None
      | String c r =>
          if Ascii.eqb c "{" then
            match skip_ws r with
            | String "}" r' => Some (Object [], r')
            | _ => parse_members fuel r []
            end
          else if Ascii.eqb c "[" then
            match skip_ws r with
            | String "]" r' => Some (Array [], r')
            | _ => parse_elements fuel r []
            end
          else if Ascii.eqb c quote then
            match parse_chars r with
            | Some (str, rest) => Some (Str str, rest)
            | None => None
            end
          else if Ascii.eqb c "t" then literal "true" (Bool true) (String c r)
          else if Ascii.eqb c "f" then literal "false" (Bool false) (String c r)
          else if Ascii.eqb c "n" then literal "null" Null (String c r)
          else
            match parse_number (String c r) with
            | Some rest => Some (Number, rest)
            | None => None
            end
      end
  end
with parse_elements (fuel : nat) (s : string) (acc : list value) : option (value * string) :=
  match fuel with
  | O => None
  | S fuel =>
      match parse_value fuel s with
      | Some (v, r) =>
          match skip_ws r with
          | String "," r' => parse_elements fuel r' (v :: acc)
          | String "]" r' => Some (Array (rev (v :: acc)), r')
          | _ => None
          end
      | None => None
      end
  end
with parse_members (fuel : nat) (s : string) (acc : list (string * value)) : option (value * string) :=
  match fuel with
  | O => None
  | S fuel =>
      match skip_ws s with
      | String c r =>
          if Ascii.eqb c quote then
            match parse_chars r with
            | Some (key, r1) =>
                match skip_ws r1 with
                | String ":" r2 =>
                    match parse_value fuel r2 with
                    | Some (v, r3) =>
                        match skip_ws r3 with
                        | String "," r4 => parse_members fuel r4 ((key, v) :: acc)
                        | String "}" r4 => Some (Object (rev ((key, v) :: acc)), r4)
                        | _ => None
                        end
                    | None => None
                    end
                | _ => None
                end
            | None => None
            end
          else None
      | EmptyString => None
      end
  end.

(** A whole document: one value, then only white space. *)
Definition parse (s : string) : option value :=
  match parse_value (2 * String.length s + 2) s with
  | Some (v, rest) =>
      match skip_ws rest with
      | EmptyString => Some v
      | _ => None
      end
  | None => None
  end.

Definition lower (c : ascii) : ascii :=
  let n := nat_of_ascii c in
  if ((65 <=? n) && (n <=? 90))%nat then ascii_of_nat (n + 32) else c.

Fixpoint fold (s : string) : string :=
  match s with
  | EmptyString => EmptyString
  | String c r => String (lower c) (fold r)
  end.

(** The values of the members whose key names the field [name]. *)
Definition members_named (name : string) (members : list (string * value)) : list value :=
  map snd (List.filter (fun kv => String.eqb (fold (fst kv)) name) members).

Definition decode_LineItem (v : value) : option LineItem :=
  match v with
  | Null => Some (mkLineItem EmptyString)
  | Object members =>
      match members_named "sku" members with
      | [] | [Null] => Some (mkLineItem EmptyString)
      | [Str s] => Some (mkLineItem s)
      | _ => None
      end
  | _ => None
  end.

Fixpoint decode_LineItems (l : list value) : option (list LineItem) :=
  match l with
  | [] => Some []
  | v :: rest =>
      match decode_LineItem v, decode_LineItems rest with
      | Some item, Some items => Some (item :: items)
      | _, _ => None
      end
  end.

Definition decode_Body (v : value) : option Body :=
  match v with
  | Null => Some (mkBody [])
  | Object members =>
      match members_named "line_items" members with
      | [] | [Null] => Some (mkBody [])
      | [Array elems] =>
          match decode_LineItems elems with
          | Some items => Some (mkBody items)
          | None => None
          end
      | _ => None
      end
  | _ => None
  end.

(** [json.Unmarshal(data, &body)] *)
Definition Unmarshal (data : bytes) : option Body :=
  match parse (string_of data) with
  | Some v => decode_Body v
  | None => None
  end.

End json.

(** [c.BodyParser(&body)] with the reference decoder: a JSON content
    type is decoded, any other is answered [ErrUnprocessableEntity]. *)
Definition json_BodyParser (c : Ctx) : Err + Body :=
  let ctype := map_index (GetReqHeaders c) "Content-Type" in
  if String.prefix "application/json" ctype then
    match json.Unmarshal (Request_Body c) with
    | Some body => inr body
    | None => inl (errorString "json: cannot decode the request body")
    end
  else inl (fiber_Error http.StatusUnprocessableEntity "Unprocessable Entity").

(** ** Concrete requests and connections for the examples *)

Module Examples.

Definition q : string := String json.quote EmptyString.

(** The JSON text of a purchase with the given SKUs. *)
Fixpoint items_json (skus : list string) : string :=
  match skus with
  | [] => EmptyString
  | [s] => "{" ++ q ++ "sku" ++ q ++ ":" ++ q ++ s ++ q ++ "}"
  | s :: rest => "{" ++ q ++ "sku" ++ q ++ ":" ++ q ++ s ++ q ++ "}," ++ items_json rest
  end.

Definition purchase_json (skus : list string) : bytes :=
  bytes_of ("{" ++ q ++ "line_items" ++ q ++ ":[" ++ items_json skus ++ "]}").

(** A request with a JSON body and the given signature header. *)
Definition request (body : bytes) (signature : string) : Ctx :=
  AcquireCtx (<["X-Shopify-Hmac-Sha256" := signature]>
               (<["Content-Type" := "application/json"]> ∅)) body.

(** The same, signed by a sender that knows the secret of [main]. *)
Definition signed (body : bytes) : Ctx :=
  request body (expected_signature Signature body).

(** A connection whose catalog is the list it holds. *)
Record ListConnection := mkListConnection { held : list string }.

#[export] Instance ListConnection_List : Connection ListConnection :=
  fun c => ((held c, None), c).

(** A connection whose backend is down: [List] returns no SKU and an
    error. *)
Inductive DownConnection : Set := mkDownConnection.

#[export] Instance DownConnection_List : Connection DownConnection :=
  fun c => (([], errors.New "catalog unavailable"), c).

(** The world [main] starts the server in. *)
Definition main_world : World MemConnection :=
  mkWorld (mkServices mkMemConnection) [].

(** A world whose catalog backend is down. *)
Definition down_world : World DownConnection :=
  mkWorld (mkServices mkDownConnection) [].

(** A world whose catalog is the single SKU "SKU2006-001". *)
Definition single_world : World ListConnection :=
  mkWorld (mkServices (mkListConnection ["SKU2006-001"])) [].

(** The end-to-end request of the specification, correctly signed. *)
Definition catalog_purchase : Ctx := signed (purchase_json ["SKU2006-002"]).

(** The same body under a signature that is not its own. *)
Definition forged_purchase : Ctx := request (purchase_json ["SKU2006-002"]) "AAAA".

(** A signed purchase without line items. *)
Definition empty_purchase : Ctx := signed (purchase_json []).

(** A signed purchase of two SKUs of the catalog. *)
Definition double_purchase : Ctx := signed (purchase_json ["SKU2006-001"; "SKU2006-002"]).

(** A signed purchase of one SKU of the catalog. *)
Definition single_purchase : Ctx := signed (purchase_json ["SKU2006-001"]).

(** A connection whose catalog changes between reads: each [List]
    returns the next list of the script, and the empty list once the
    script is over. *)
Record ScriptedConnection := mkScriptedConnection { script : list (list string) }.

#[export] Instance ScriptedConnection_List : Connection ScriptedConnection :=
  fun c => ((hd [] (script c), None), mkScriptedConnection (tl (script c))).

(** A world whose catalog is ["SKU-A"] at the first read and
    ["SKU-B"] at the second. *)
Definition scripted_world : World ScriptedConnection :=
  mkWorld (mkServices (mkScriptedConnection [["SKU-A"]; ["SKU-B"]])) [].

(** The world of [main] after an earlier line of output. *)
Definition later_world : World MemConnection :=
  mkWorld (mkServices mkMemConnection) [Stdout "earlier"].


(** The end-to-end body sent without a signature header. *)
Definition unsigned_purchase : Ctx :=
  AcquireCtx (<["Content-Type" := "application/json"]> ∅) (purchase_json ["SKU2006-002"]).

End Examples.

(** * Properties *)

(** ** The imported packages on their published test vectors *)

Example sha256_empty :
  hex (sha256.Sum256 [])
  = "e3b0c44298fc1c149afbf4c8996fb92427ae41e4649b934ca495991b7852b855".
Proof. vm_compute. reflexivity. Qed.

Example sha256_abc :
  hex (sha256.Sum256 (bytes_of "abc"))
  = "ba7816bf8f01cfea414140de5dae2223b00361a396177a9cb410ff61f20015ad".
Proof. vm_compute. reflexivity. Qed.

Example sha256_two_blocks :
  hex (sha256.Sum256 (bytes_of "abcdbcdecdefdefgefghfghighijhijkijkljklmklmnlmnomnopnopq"))
  = "248d6a61d20638b8e5c026930c3e6039a33ce45964ff2167f6ecedd419db06c1".
Proof. vm_compute. reflexivity. Qed.

Example hmac_sha256_fox :
  hex (HMAC_SHA256 (bytes_of "key") (bytes_of "The quick brown fox jumps over the lazy dog"))
  = "f7bc83f430538424b13298e6aa6fb143ef4d59a14946175997479dbc2d1a3cd8".
Proof. vm_compute. reflexivity. Qed.

(** RFC 4231, test case 6: a key longer than the block is hashed first. *)
Example hmac_sha256_long_key :
  hex (HMAC_SHA256 (repeat xaa 131)
         (bytes_of "Test Using Larger Than Block-Size Key - Hash Key First"))
  = "60e431591ee0b67f0d8a26aacbf5b77f8e0bc6213728c5140546040f0ee37f54".
Proof. vm_compute. reflexivity. Qed.

Example hmac_sha256_empty_secret :
  hex (HMAC_SHA256 (bytes_of Signature) [])
  = "b613679a0814d9ec772f95d778c35fc5ff1697c493715653c6c712144292c5ad".
Proof. vm_compute. reflexivity. Qed.

(** RFC 4648, section 10. *)
Example base64_vectors :
  map base64.EncodeToString (map bytes_of ["f"; "fo"; "foo"; "foob"; "fooba"; "foobar"])
  = ["Zg=="; "Zm8="; "Zm9v"; "Zm9vYg=="; "Zm9vYmE="; "Zm9vYmFy"].
Proof. vm_compute. reflexivity. Qed.

Example purchase_signature :
  expected_signature Signature (Examples.purchase_json ["SKU2006-002"])
  = "1yGzlFU2qZQkeZ5Ac+1jyEGfpPQnLhLnvkI7BgfIDO4=".
Proof. vm_compute. reflexivity. Qed.

(** ** The constant-time comparison decides equality *)

Lemma byte_to_Z_inj (a b : byte) : byte_to_Z a = byte_to_Z b -> a = b.
Proof.
  unfold byte_to_Z. intros E. apply N2Z.inj in E.
  assert (S : Some a = Some b) by (rewrite <- !Byte.of_to_N; now rewrite E).
  now injection S.
Qed.

Lemma bytes_of_inj (s t : string) : bytes_of s = bytes_of t -> s = t.
Proof.
  unfold bytes_of. intros E.
  rewrite <- (string_of_list_byte_of_string s), <- (string_of_list_byte_of_string t).
  now rewrite E.
Qed.

Lemma xor_acc_same (x : bytes) : hmac.xor_acc 0 x x = 0.
Proof.
  induction x as [|a x IH]; simpl; [reflexivity|].
  now rewrite Z.lxor_nilpotent.
Qed.

Lemma xor_acc_zero (x y : bytes) (v : Z) :
  length x = length y -> hmac.xor_acc v x y = 0 -> v = 0 /\ x = y.
Proof.
  revert y v. induction x as [|a x IH]; intros [|b y] v L E; simpl in *; try discriminate.
  - now split.
  - injection L as L. destruct (IH _ _ L E) as [V ->].
    apply Z.lor_eq_0_iff in V as [-> D].
    apply Z.lxor_eq in D. apply byte_to_Z_inj in D. now subst.
Qed.

Lemma hmac_Equal_spec (x y : bytes) : hmac.Equal x y = true <-> x = y.
Proof.
  unfold hmac.Equal, hmac.ConstantTimeCompare. split.
  - destruct (Nat.eqb_spec (length x) (length y)) as [L|L]; simpl; [|discriminate].
    destruct (Z.eqb_spec (hmac.xor_acc 0 x y) 0) as [E|E]; [|discriminate].
    intros _. now apply (xor_acc_zero x y 0).
  - intros ->. rewrite Nat.eqb_refl. simpl. now rewrite xor_acc_same.
Qed.

Lemma signature_block_spec (secret : string) (body : bytes) (signature : string) :
  signature_block secret body signature = true <-> signature = expected_signature secret body.
Proof.
  unfold signature_block. rewrite hmac_Equal_spec. split.
  - intros E. symmetry. now apply bytes_of_inj.
  - now intros ->.
Qed.

(** ** [Services.Webhook] and the dispatch loop *)

Section ServiceProperties.
Context {C : Type} `{Connection C}.

Lemma services_eta (s : Services C) : mkServices (database s) = s.
Proof. now destruct s. Qed.

Lemma range_skus_found (skus : list string) (sku : string) (w : World C) :
  In sku skus ->
  range_skus skus sku w
  = (errors.New "Found wanted sku", mkWorld (services w) (trace w ++ [Found sku])).
Proof.
  induction skus as [|s skus IH]; simpl; [tauto|].
  intros I. destruct (String.eqb_spec s sku) as [E|N].
  - reflexivity.
  - apply IH. destruct I; [contradiction|assumption].
Qed.

Lemma range_skus_missing (skus : list string) (sku : string) (w : World C) :
  ~ In sku skus -> range_skus skus sku w = (None, w).
Proof.
  induction skus as [|s skus IH]; simpl; intros N; [reflexivity|].
  destruct (String.eqb_spec s sku) as [E|D]; [tauto|].
  apply IH. tauto.
Qed.

(** [Webhook] enters, reads the catalog once, discards the error of the
    read and scans what was returned. *)
Lemma Webhook_run (sku : string) (w : World C) :
  Webhook sku w
  = range_skus (fst (fst (List (database (services w))))) sku
      (mkWorld (mkServices (snd (List (database (services w)))))
               (trace w ++ [Call_Webhook sku])).
Proof.
  unfold Webhook, mbind, M_bind, emit, database_List. simpl.
  now destruct (List (database (services w))) as [[skus e] c'].
Qed.

Lemma Webhook_found (sku : string) (w : World C) skus e c' :
  List (database (services w)) = ((skus, e), c') ->
  In sku skus ->
  Webhook sku w
  = (errors.New "Found wanted sku",
     mkWorld (mkServices c') (trace w ++ [Call_Webhook sku; Found sku])).
Proof.
  intros L I. rewrite Webhook_run, L. simpl.
  rewrite range_skus_found by assumption. simpl.
  now rewrite <- app_assoc.
Qed.

Lemma Webhook_missing (sku : string) (w : World C) skus e c' :
  List (database (services w)) = ((skus, e), c') ->
  ~ In sku skus ->
  Webhook sku w = (None, mkWorld (mkServices c') (trace w ++ [Call_Webhook sku])).
Proof.
  intros L N. rewrite Webhook_run, L. simpl.
  now rewrite range_skus_missing.
Qed.

Lemma range_LineItems_no_match (items : list LineItem) (w : World C) skus e :
  reads_catalog w skus e ->
  Forall (fun i => ~ In (Sku i) skus) items ->
  range_LineItems items w
  = (None, mkWorld (services w) (trace w ++ calls (map Sku items))).
Proof.
  revert w. induction items as [|i items IH]; intros w R F.
  - simpl. rewrite app_nil_r. now destruct w.
  - inversion F as [|? ? Ni F']; subst.
    simpl. unfold mbind, M_bind.
    rewrite (Webhook_missing _ _ _ _ _ R Ni), services_eta.
    rewrite IH; [|exact R|exact F']. simpl.
    now rewrite <- app_assoc.
Qed.

Lemma range_LineItems_first_match (pre post : list LineItem) (x : LineItem)
      (w : World C) skus e :
  reads_catalog w skus e ->
  Forall (fun i => ~ In (Sku i) skus) pre ->
  In (Sku x) skus ->
  range_LineItems (pre ++ x :: post) w
  = (errors.New "Found wanted sku",
     mkWorld (services w)
             (trace w ++ calls (map Sku pre) ++ [Call_Webhook (Sku x); Found (Sku x)])).
Proof.
  revert w. induction pre as [|i pre IH]; intros w R F I.
  - simpl. unfold mbind, M_bind.
    now rewrite (Webhook_found _ _ _ _ _ R I), services_eta.
  - inversion F as [|? ? Ni F']; subst.
    simpl. unfold mbind, M_bind.
    rewrite (Webhook_missing _ _ _ _ _ R Ni), services_eta.
    rewrite IH; [|exact R|exact F'|exact I]. simpl.
    now rewrite <- app_assoc.
Qed.

(** Either no line item is in the catalog, or there is a first one. *)
Lemma first_match_split (skus : list string) (items : list LineItem) :
  Forall (fun i => ~ In (Sku i) skus) items \/
  exists pre x post,
    items = (pre ++ x :: post)%list /\
    Forall (fun i => ~ In (Sku i) skus) pre /\ In (Sku x) skus.
Proof.
  induction items as [|i items IH]; [left; constructor|].
  destruct (in_dec String.string_dec (Sku i) skus) as [I|N].
  - right. exists [], i, items. repeat split; [constructor|assumption].
  - destruct IH as [F|(pre & x & post & -> & F & I)].
    + left. now constructor.
    + right. exists (i :: pre), x, post. repeat split; [now constructor|assumption].
Qed.

End ServiceProperties.

(** ** Traces *)

Lemma notifications_app (s t : list event) :
  notifications (s ++ t) = (notifications s ++ notifications t)%list.
Proof. unfold notifications. now rewrite flat_map_app. Qed.

Lemma notifications_calls (skus : list string) : notifications (calls skus) = [].
Proof. induction skus as [|s skus IH]; simpl; [reflexivity|exact IH]. Qed.

Lemma webhook_calls_app (s t : list event) :
  webhook_calls (s ++ t) = (webhook_calls s ++ webhook_calls t)%list.
Proof. unfold webhook_calls. now rewrite flat_map_app. Qed.

Lemma webhook_calls_calls (skus : list string) : webhook_calls (calls skus) = skus.
Proof. induction skus as [|s skus IH]; simpl; [reflexivity|now rewrite IH]. Qed.

(** ** The webhook handler *)

Section HandlerProperties.
Context {C : Type} `{Connection C}.
Variable BodyParser : Ctx -> Err + Body.

Lemma webhook_handler_rejected (c : Ctx) (w : World C) :
  signature_block Signature (Request_Body c) (presented_signature c) = false ->
  webhook_handler BodyParser c w = (SendStatus c http.StatusUnauthorized, w).
Proof.
  intros V. unfold presented_signature in V.
  unfold webhook_handler. cbv zeta. now rewrite V.
Qed.

Lemma webhook_handler_accepted (c : Ctx) (w : World C) (body : Body) :
  signature_block Signature (Request_Body c) (presented_signature c) = true ->
  BodyParser c = inr body ->
  webhook_handler BodyParser c w
  = (match fst (range_LineItems (LineItems body) w) with
     | Some e => (Some e, c)
     | None => SendStatus c http.StatusOK
     end,
     snd (range_LineItems (LineItems body) w)).
Proof.
  intros V P. unfold presented_signature in V.
  unfold webhook_handler. cbv zeta.
  rewrite V, P. simpl. unfold mbind, M_bind.
  destruct (range_LineItems (LineItems body) w) as [[e|] w']; reflexivity.
Qed.

Lemma respond_run (h : handler) (c : Ctx) (w : World C) :
  respond h c w
  = (match fst (fst (h c w)) with
     | None => snd (fst (h c w))
     | Some e => DefaultErrorHandler (snd (fst (h c w))) e
     end,
     snd (h c w)).
Proof.
  unfold respond, mbind, M_bind.
  destruct (h c w) as [[[e|] c'] w']; reflexivity.
Qed.

(** C1. A request to [POST /webhook] whose [X-Shopify-Hmac-Sha256] header
    is not the base64 of the HMAC-SHA256 of its raw body under the
    configured secret is answered 401, and nothing else happens: the
    handler returns from [SendStatus] with the world as it found it, so
    no line is printed and [Services.Webhook] is not entered. *)
Theorem bad_signature_unauthorized (c : Ctx) (w : World C) :
  presented_signature c
    <> base64.EncodeToString (HMAC_SHA256 (bytes_of Signature) (Request_Body c)) ->
  webhook_handler BodyParser c w = (SendStatus c http.StatusUnauthorized, w) /\
  Response_Status (fst (respond (webhook_handler BodyParser) c w)) = 401 /\
  snd (respond (webhook_handler BodyParser) c w) = w /\
  notifications (trace (snd (respond (webhook_handler BodyParser) c w)))
    = notifications (trace w) /\
  webhook_calls (trace (snd (respond (webhook_handler BodyParser) c w)))
    = webhook_calls (trace w).
Proof.
  intros N.
  assert (V : signature_block Signature (Request_Body c) (presented_signature c) = false).
  { destruct (signature_block _ _ _) eqn:E; [|reflexivity].
    apply signature_block_spec in E. contradiction. }
  rewrite respond_run, (webhook_handler_rejected c w V). simpl. tauto.
Qed.

(** C7. A verified request whose body decodes to an empty [line_items]
    is answered 200 and leaves the world as it was: no notification, no
    call of [Services.Webhook]. *)
Theorem empty_purchase_ok (c : Ctx) (w : World C) (body : Body) :
  signature_block Signature (Request_Body c) (presented_signature c) = true ->
  BodyParser c = inr body ->
  LineItems body = [] ->
  webhook_handler BodyParser c w = (SendStatus c http.StatusOK, w) /\
  Response_Status (fst (respond (webhook_handler BodyParser) c w)) = 200 /\
  snd (respond (webhook_handler BodyParser) c w) = w /\
  notifications (trace (snd (respond (webhook_handler BodyParser) c w)))
    = notifications (trace w).
Proof.
  intros V P E.
  rewrite respond_run, (webhook_handler_accepted c w body V P), E. simpl. tauto.
Qed.

End HandlerProperties.

(** ** What the dispatch does on a match *)

Section DispatchProperties.
Context {C : Type} `{Connection C}.

(** C8. [Services.Webhook(s)] returns a non-nil error exactly when [s] is
    an element of the list [Connection.List] returned, and [nil] exactly
    when it is none of them; the call prints its one line in the first
    case and nothing in the second. *)
Theorem Webhook_error_iff_match (sku : string) (w : World C) :
  let skus := fst (fst (List (database (services w)))) in
  let r := Webhook sku w in
  (fst r <> None <-> In sku skus) /\
  (fst r = None <-> ~ In sku skus) /\
  (fst r <> None ->
     fst r = errors.New "Found wanted sku" /\
     trace (snd r) = (trace w ++ [Call_Webhook sku; Found sku])%list /\
     notifications (trace (snd r))
       = (notifications (trace w) ++ [fmt.Sprintln ["Found wanted sku:"; sku]])%list) /\
  (fst r = None ->
     trace (snd r) = (trace w ++ [Call_Webhook sku])%list /\
     notifications (trace (snd r)) = notifications (trace w)).
Proof.
  cbv zeta.
  destruct (List (database (services w))) as [[skus e] c'] eqn:L. simpl.
  destruct (in_dec String.string_dec sku skus) as [I|N].
  - rewrite (Webhook_found sku w skus e c' L I). simpl.
    repeat split; try tauto; try discriminate.
    rewrite notifications_app. simpl. reflexivity.
  - rewrite (Webhook_missing sku w skus e c' L N). simpl.
    repeat split; try tauto; try congruence.
    rewrite notifications_app. simpl. now rewrite app_nil_r.
Qed.

(** C6. With the line items ["SKU2006-001"; "SKU-UNKNOWN"] and a catalog
    that contains "SKU2006-001", the dispatch prints exactly one
    notification, the one for "SKU2006-001"; nothing is printed for
    "SKU-UNKNOWN". *)
Theorem one_match_one_notification (w : World C) (skus : list string) (e : error) (c' : C) :
  List (database (services w)) = ((skus, e), c') ->
  In "SKU2006-001" skus ->
  let w' := snd (range_LineItems [mkLineItem "SKU2006-001"; mkLineItem "SKU-UNKNOWN"] w) in
  trace w' = (trace w ++ [Call_Webhook "SKU2006-001"; Found "SKU2006-001"])%list /\
  notifications (trace w')
    = (notifications (trace w) ++ [fmt.Sprintln ["Found wanted sku:"; "SKU2006-001"]])%list /\
  ~ In (Found "SKU-UNKNOWN") (skipn (length (trace w)) (trace w')).
Proof.
  intros L I. cbv zeta. simpl range_LineItems. unfold mbind, M_bind.
  rewrite (Webhook_found _ w skus e c' L I). simpl.
  repeat split.
  - rewrite notifications_app. reflexivity.
  - rewrite skipn_app, skipn_all, Nat.sub_diag. simpl.
    intros [D|[D|[]]]; discriminate.
Qed.

(** C4, as the code has it. When the line items contain two distinct
    SKUs of the catalog, the dispatch stops at the first line item whose
    SKU is in the catalog: it returns the error of [Services.Webhook]
    there, exactly one notification has been printed (for that line
    item), and the line items after it, at least one of the two SKUs
    among them, never reach [Services.Webhook]. *)
Theorem dispatch_stops_at_first_match
        (items : list LineItem) (a b : string) (w : World C) (skus : list string) (e : error) :
  reads_catalog w skus e ->
  In a (map Sku items) -> In b (map Sku items) -> a <> b ->
  In a skus -> In b skus ->
  exists pre x post,
    items = (pre ++ x :: post)%list /\
    Forall (fun i => ~ In (Sku i) skus) pre /\
    In (Sku x) skus /\
    (In a (map Sku post) \/ In b (map Sku post)) /\
    fst (range_LineItems items w) = errors.New "Found wanted sku" /\
    notifications (trace (snd (range_LineItems items w)))
      = (notifications (trace w) ++ [fmt.Sprintln ["Found wanted sku:"; Sku x]])%list /\
    webhook_calls (trace (snd (range_LineItems items w)))
      = (webhook_calls (trace w) ++ map Sku pre ++ [Sku x])%list.
Proof.
  intros R Ia Ib D Ca Cb.
  destruct (first_match_split skus items) as [F|(pre & x & post & -> & F & I)].
  - exfalso. apply in_map_iff in Ia as (i & <- & Ii).
    rewrite List.Forall_forall in F. exact (F i Ii Ca).
  - exists pre, x, post.
    assert (P : forall s, In s (map Sku (pre ++ x :: post)) -> In s skus ->
                          s = Sku x \/ In s (map Sku post)).
    { intros s Is Cs. rewrite map_app, in_app_iff in Is. simpl in Is.
      destruct Is as [Is|[Is|Is]]; [|now left|now right].
      exfalso. apply in_map_iff in Is as (i & <- & Ii).
      rewrite List.Forall_forall in F. exact (F i Ii Cs). }
    rewrite (range_LineItems_first_match pre post x w skus e R F I). simpl.
    repeat split; try assumption.
    + destruct (P a Ia Ca) as [Ea|Pa]; [|now left].
      destruct (P b Ib Cb) as [Eb|Pb]; [|now right].
      congruence.
    + rewrite !notifications_app, notifications_calls. reflexivity.
    + rewrite !webhook_calls_app, webhook_calls_calls. reflexivity.
Qed.

End DispatchProperties.

(** ** The answer to a verified, well-formed request *)

Section ResponseProperties.
Context {C : Type} `{Connection C}.
Variable BodyParser : Ctx -> Err + Body.

Lemma respond_no_match (c : Ctx) (w : World C) (body : Body) skus e :
  reads_catalog w skus e ->
  signature_block Signature (Request_Body c) (presented_signature c) = true ->
  BodyParser c = inr body ->
  Forall (fun i => ~ In (Sku i) skus) (LineItems body) ->
  respond (webhook_handler BodyParser) c w
  = (snd (SendStatus c http.StatusOK),
     mkWorld (services w) (trace w ++ calls (map Sku (LineItems body)))).
Proof.
  intros R V P F.
  rewrite respond_run, (webhook_handler_accepted BodyParser c w body V P).
  now rewrite (range_LineItems_no_match _ w skus e R F).
Qed.

Lemma respond_first_match (c : Ctx) (w : World C) (body : Body) skus e pre x post :
  reads_catalog w skus e ->
  signature_block Signature (Request_Body c) (presented_signature c) = true ->
  BodyParser c = inr body ->
  LineItems body = (pre ++ x :: post)%list ->
  Forall (fun i => ~ In (Sku i) skus) pre ->
  In (Sku x) skus ->
  respond (webhook_handler BodyParser) c w
  = (DefaultErrorHandler c (errorString "Found wanted sku"),
     mkWorld (services w)
             (trace w ++ calls (map Sku pre) ++ [Call_Webhook (Sku x); Found (Sku x)])).
Proof.
  intros R V P E F I.
  rewrite respond_run, (webhook_handler_accepted BodyParser c w body V P), E.
  now rewrite (range_LineItems_first_match pre post x w skus e R F I).
Qed.

(** C3, as the code has it. A request that passes the signature check
    and whose body decodes is answered 200 exactly when no line-item SKU
    is in the catalog, and then nothing is printed. When some line item
    is in the catalog, the handler prints exactly one notification, for
    the first such line item, and returns the error "Found wanted sku"
    of [Services.Webhook] instead of sending 200; fiber's default error
    handler answers it with 500. *)
Theorem webhook_ok_iff_no_match (c : Ctx) (w : World C) (body : Body) (skus : list string) (e : error) :
  reads_catalog w skus e ->
  signature_block Signature (Request_Body c) (presented_signature c) = true ->
  BodyParser c = inr body ->
  let r := respond (webhook_handler BodyParser) c w in
  (Response_Status (fst r) = http.StatusOK
     <-> Forall (fun i => ~ In (Sku i) skus) (LineItems body)) /\
  (Forall (fun i => ~ In (Sku i) skus) (LineItems body) ->
     fst (fst (webhook_handler BodyParser c w)) = None /\
     notifications (trace (snd r)) = notifications (trace w)) /\
  (forall pre x post,
     LineItems body = (pre ++ x :: post)%list ->
     Forall (fun i => ~ In (Sku i) skus) pre ->
     In (Sku x) skus ->
     fst (fst (webhook_handler BodyParser c w)) = errors.New "Found wanted sku" /\
     Response_Status (fst r) = http.StatusInternalServerError /\
     notifications (trace (snd r))
       = (notifications (trace w) ++ [fmt.Sprintln ["Found wanted sku:"; Sku x]])%list).
Proof.
  intros R V P. cbv zeta. split; [|split].
  - destruct (first_match_split skus (LineItems body)) as [F|(pre & x & post & E & F & I)].
    + rewrite (respond_no_match c w body skus e R V P F).
      split; [intros _; exact F|reflexivity].
    + rewrite (respond_first_match c w body skus e pre x post R V P E F I).
      split; [intros S; discriminate S|].
      intros A. exfalso. rewrite E in A.
      rewrite List.Forall_forall in A. apply (A x); [|exact I].
      apply in_or_app. right. now left.
  - intros F. rewrite (respond_no_match c w body skus e R V P F).
    rewrite (webhook_handler_accepted BodyParser c w body V P).
    rewrite (range_LineItems_no_match _ w skus e R F). simpl.
    split; [reflexivity|].
    now rewrite notifications_app, notifications_calls, app_nil_r.
  - intros pre x post E F I.
    rewrite (respond_first_match c w body skus e pre x post R V P E F I).
    rewrite (webhook_handler_accepted BodyParser c w body V P), E.
    rewrite (range_LineItems_first_match pre post x w skus e R F I). simpl.
    repeat split.
    now rewrite !notifications_app, notifications_calls.
Qed.

(** C5, as the code has it. [Services.Webhook] discards the error of
    [Connection.List] and scans the list returned with it: with a
    failed read it still returns [nil] exactly for the SKUs that are
    not in that list. When the list that comes with the error is
    empty, every line item is passed to [Services.Webhook], each call
    returns [nil], nothing is printed and the verified, well-formed
    request is answered 200, as with an empty catalog. *)
Theorem List_error_is_discarded
        (c : Ctx) (w : World C) (body : Body) (skus : list string) (err : Err) :
  reads_catalog w skus (Some err) ->
  signature_block Signature (Request_Body c) (presented_signature c) = true ->
  BodyParser c = inr body ->
  (forall sku, fst (Webhook sku w) = None <-> ~ In sku skus) /\
  (skus = [] ->
   range_LineItems (LineItems body) w
     = (None, mkWorld (services w) (trace w ++ calls (map Sku (LineItems body)))) /\
   Response_Status (fst (respond (webhook_handler BodyParser) c w)) = http.StatusOK /\
   notifications (trace (snd (respond (webhook_handler BodyParser) c w)))
     = notifications (trace w)).
Proof.
  intros R V P. split.
  - intros sku. destruct (in_dec String.string_dec sku skus) as [I|N].
    + rewrite (Webhook_found sku w skus (Some err) _ R I). simpl.
      split; [discriminate|tauto].
    + rewrite (Webhook_missing sku w skus (Some err) _ R N). simpl. tauto.
  - intros ->.
    assert (F : Forall (fun i => ~ In (Sku i) []) (LineItems body)).
    { apply List.Forall_forall. intros i _ []. }
    split; [|split].
    + exact (range_LineItems_no_match _ w [] (Some err) R F).
    + now rewrite (respond_no_match c w body [] (Some err) R V P F).
    + rewrite (respond_no_match c w body [] (Some err) R V P F). simpl.
      now rewrite notifications_app, notifications_calls, app_nil_r.
Qed.

(** The route table of [main] passes the method check of
    [NewHTTPServer], and [POST /webhook] is routed to the handler. *)
Lemma routes_registered :
  NewHTTPServer_routes (routes BodyParser) = inr (routes BodyParser) /\
  In (mkRoute http.MethodPost "/webhook" (webhook_handler BodyParser)) (routes BodyParser).
Proof. split; [reflexivity|]. simpl. tauto. Qed.

End ResponseProperties.

(** ** The signature check and the in-memory catalog *)

(** C2. For every secret and body the check accepts the padded standard
    base64 of the HMAC-SHA256 of the body under the secret, and rejects
    every other presented signature. *)
Theorem signature_accepted_iff_expected (K : string) (B : bytes) :
  signature_block K B (base64.EncodeToString (HMAC_SHA256 (bytes_of K) B)) = true /\
  forall S : string,
    S <> base64.EncodeToString (HMAC_SHA256 (bytes_of K) B) ->
    signature_block K B S = false.
Proof.
  split.
  - now apply signature_block_spec.
  - intros S N. destruct (signature_block K B S) eqn:E; [|reflexivity].
    apply signature_block_spec in E. contradiction.
Qed.

(** C9. [MemConnection.List] returns the three fixed SKUs and a nil
    error and leaves its receiver as it was, so a second call returns
    the same; the service [main] builds holds such a connection, and no
    read of its catalog returns an error or changes the world. *)
Theorem MemConnection_List_fixed (c : MemConnection) :
  List c = ((["SKU2006-001"; "SKU2006-002"; "SKU2006-003"], None), c) /\
  List (snd (List c)) = List c /\
  main_services = Started (mkServices mkMemConnection) /\
  forall w : World MemConnection,
    database_List w = ((["SKU2006-001"; "SKU2006-002"; "SKU2006-003"], None), w).
Proof.
  repeat split.
  intros [[[]] t]. reflexivity.
Qed.

(** * The properties on concrete requests *)

Import Examples.

Example catalog_purchase_body :
  string_of (Request_Body catalog_purchase)
  = "{" ++ q ++ "line_items" ++ q ++ ":[{" ++ q ++ "sku" ++ q ++ ":" ++ q ++ "SKU2006-002" ++ q ++ "}]}".
Proof. vm_compute. reflexivity. Qed.

Example catalog_purchase_decodes :
  json_BodyParser catalog_purchase = inr (mkBody [mkLineItem "SKU2006-002"]).
Proof. vm_compute. reflexivity. Qed.

Example form_body_unprocessable :
  json_BodyParser (AcquireCtx ∅ (purchase_json ["SKU2006-002"]))
  = inl (fiber_Error 422 "Unprocessable Entity").
Proof. vm_compute. reflexivity. Qed.

Example truncated_body_refused :
  json_BodyParser (request (bytes_of "{") "AAAA")
  = inl (errorString "json: cannot decode the request body").
Proof. vm_compute. reflexivity. Qed.

(** The forged request is answered 401. *)
Lemma bad_signature_unauthorized_witness :
  presented_signature forged_purchase
    <> base64.EncodeToString (HMAC_SHA256 (bytes_of Signature) (Request_Body forged_purchase)) /\
  Response_Status (fst (respond (webhook_handler json_BodyParser) forged_purchase main_world)) = 401.
Proof.
  assert (N : presented_signature forged_purchase
              <> base64.EncodeToString
                   (HMAC_SHA256 (bytes_of Signature) (Request_Body forged_purchase)))
    by (vm_compute; discriminate).
  split; [exact N|].
  exact (proj1 (proj2 (bad_signature_unauthorized json_BodyParser forged_purchase main_world N))).
Defined.

(** The check rejects "AAAA" for the end-to-end body. *)
Lemma signature_accepted_iff_expected_witness :
  signature_block Signature (purchase_json ["SKU2006-002"]) "AAAA" = false.
Proof.
  apply (proj2 (signature_accepted_iff_expected Signature (purchase_json ["SKU2006-002"]))).
  vm_compute. discriminate.
Defined.

(** C3 fails on the code: the end-to-end request of the specification,
    correctly signed and well formed, with the catalog SKU
    "SKU2006-002", is not answered 200. The handler returns the error
    of [Services.Webhook] and the server answers 500. *)
Lemma catalog_purchase_not_ok :
  signature_block Signature (Request_Body catalog_purchase)
    (presented_signature catalog_purchase) = true /\
  json_BodyParser catalog_purchase = inr (mkBody [mkLineItem "SKU2006-002"]) /\
  In "SKU2006-002" (fst (fst (List (database (services main_world))))) /\
  fst (fst (webhook_handler json_BodyParser catalog_purchase main_world))
    = errors.New "Found wanted sku" /\
  Response_Status (fst (respond (webhook_handler json_BodyParser) catalog_purchase main_world))
    = 500 /\
  Response_Status (fst (respond (webhook_handler json_BodyParser) catalog_purchase main_world))
    <> http.StatusOK.
Proof.
  split; [vm_compute; reflexivity|].
  split; [vm_compute; reflexivity|].
  split; [simpl; tauto|].
  split; [vm_compute; reflexivity|].
  split; [vm_compute; reflexivity|].
  vm_compute. discriminate.
Qed.

Lemma webhook_ok_iff_no_match_witness :
  Response_Status (fst (respond (webhook_handler json_BodyParser) catalog_purchase main_world))
    = http.StatusOK
  <-> Forall (fun i => ~ In (Sku i) ["SKU2006-001"; "SKU2006-002"; "SKU2006-003"])
             [mkLineItem "SKU2006-002"].
Proof.
  apply (webhook_ok_iff_no_match json_BodyParser catalog_purchase main_world
           (mkBody [mkLineItem "SKU2006-002"])
           ["SKU2006-001"; "SKU2006-002"; "SKU2006-003"] None).
  - reflexivity.
  - vm_compute. reflexivity.
  - vm_compute. reflexivity.
Defined.

(** C4 fails on the code: with the two catalog SKUs "SKU2006-001" and
    "SKU2006-002" as line items the dispatch prints one notification,
    not two, and [Services.Webhook] is entered for the first only. *)
Lemma two_catalog_skus_one_notification :
  notifications
    (trace (snd (range_LineItems [mkLineItem "SKU2006-001"; mkLineItem "SKU2006-002"] main_world)))
  = [fmt.Sprintln ["Found wanted sku:"; "SKU2006-001"]] /\
  length (notifications
    (trace (snd (range_LineItems [mkLineItem "SKU2006-001"; mkLineItem "SKU2006-002"] main_world))))
  <> 2%nat /\
  webhook_calls
    (trace (snd (range_LineItems [mkLineItem "SKU2006-001"; mkLineItem "SKU2006-002"] main_world)))
  = ["SKU2006-001"].
Proof.
  split; [vm_compute; reflexivity|].
  split; [vm_compute; discriminate|].
  vm_compute. reflexivity.
Qed.

Lemma dispatch_stops_at_first_match_witness :
  exists pre x post,
    [mkLineItem "SKU2006-001"; mkLineItem "SKU2006-002"] = (pre ++ x :: post)%list /\
    Forall (fun i => ~ In (Sku i) ["SKU2006-001"; "SKU2006-002"; "SKU2006-003"]) pre /\
    In (Sku x) ["SKU2006-001"; "SKU2006-002"; "SKU2006-003"] /\
    (In "SKU2006-001" (map Sku post) \/ In "SKU2006-002" (map Sku post)) /\
    fst (range_LineItems [mkLineItem "SKU2006-001"; mkLineItem "SKU2006-002"] main_world)
      = errors.New "Found wanted sku" /\
    notifications
      (trace (snd (range_LineItems [mkLineItem "SKU2006-001"; mkLineItem "SKU2006-002"] main_world)))
      = (notifications (trace main_world) ++ [fmt.Sprintln ["Found wanted sku:"; Sku x]])%list /\
    webhook_calls
      (trace (snd (range_LineItems [mkLineItem "SKU2006-001"; mkLineItem "SKU2006-002"] main_world)))
      = (webhook_calls (trace main_world) ++ map Sku pre ++ [Sku x])%list.
Proof.
  apply (dispatch_stops_at_first_match
           [mkLineItem "SKU2006-001"; mkLineItem "SKU2006-002"]
           "SKU2006-001" "SKU2006-002" main_world
           ["SKU2006-001"; "SKU2006-002"; "SKU2006-003"] None).
  - reflexivity.
  - simpl. tauto.
  - simpl. tauto.
  - discriminate.
  - simpl. tauto.
  - simpl. tauto.
Defined.

(** C5 fails on the code: the catalog read returns an error, and the
    dispatch of a line item still returns [nil]; the signed request is
    answered 200 and not with a server error. *)
Lemma unreadable_catalog_answered_ok :
  snd (fst (List (database (services down_world)))) = errors.New "catalog unavailable" /\
  range_LineItems [mkLineItem "SKU2006-001"] down_world
    = (None, mkWorld (services down_world) [Call_Webhook "SKU2006-001"]) /\
  fst (fst (webhook_handler json_BodyParser single_purchase down_world)) = None /\
  Response_Status (fst (respond (webhook_handler json_BodyParser) single_purchase down_world))
    = http.StatusOK.
Proof.
  split; [reflexivity|].
  split; [reflexivity|].
  split; vm_compute; reflexivity.
Qed.

Lemma List_error_is_discarded_witness :
  range_LineItems [mkLineItem "SKU2006-001"] down_world
    = (None, mkWorld (services down_world) (trace down_world ++ calls ["SKU2006-001"])) /\
  Response_Status (fst (respond (webhook_handler json_BodyParser) single_purchase down_world))
    = http.StatusOK /\
  notifications
    (trace (snd (respond (webhook_handler json_BodyParser) single_purchase down_world)))
    = notifications (trace down_world).
Proof.
  apply (List_error_is_discarded json_BodyParser single_purchase down_world
           (mkBody [mkLineItem "SKU2006-001"]) [] (errorString "catalog unavailable")).
  - reflexivity.
  - vm_compute. reflexivity.
  - vm_compute. reflexivity.
  - reflexivity.
Defined.

(** In a world whose catalog is ["SKU2006-001"]. *)
Lemma one_match_one_notification_witness :
  notifications
    (trace (snd (range_LineItems [mkLineItem "SKU2006-001"; mkLineItem "SKU-UNKNOWN"] single_world)))
  = (notifications (trace single_world) ++ [fmt.Sprintln ["Found wanted sku:"; "SKU2006-001"]])%list.
Proof.
  apply (one_match_one_notification single_world ["SKU2006-001"] None
           (mkListConnection ["SKU2006-001"])).
  - reflexivity.
  - simpl. tauto.
Defined.

Lemma empty_purchase_ok_witness :
  webhook_handler json_BodyParser empty_purchase main_world
    = (SendStatus empty_purchase http.StatusOK, main_world) /\
  Response_Status (fst (respond (webhook_handler json_BodyParser) empty_purchase main_world)) = 200 /\
  snd (respond (webhook_handler json_BodyParser) empty_purchase main_world) = main_world /\
  notifications (trace (snd (respond (webhook_handler json_BodyParser) empty_purchase main_world)))
    = notifications (trace main_world).
Proof.
  apply (empty_purchase_ok json_BodyParser empty_purchase main_world (mkBody [])).
  - vm_compute. reflexivity.
  - vm_compute. reflexivity.
  - reflexivity.
Defined.

Lemma Webhook_error_iff_match_witness :
  fst (Webhook "SKU2006-001" main_world) = errors.New "Found wanted sku" /\
  trace (snd (Webhook "SKU2006-001" main_world))
    = (trace main_world ++ [Call_Webhook "SKU2006-001"; Found "SKU2006-001"])%list /\
  notifications (trace (snd (Webhook "SKU2006-001" main_world)))
    = (notifications (trace main_world) ++ [fmt.Sprintln ["Found wanted sku:"; "SKU2006-001"]])%list.
Proof.
  apply (Webhook_error_iff_match "SKU2006-001" main_world).
  vm_compute. discriminate.
Defined.

(** * Further properties of the program *)

(** ** The method check of [NewHTTPServer] *)

Lemma method_check_spec (m : string) :
  (String.eqb m http.MethodGet
   || String.eqb m http.MethodPost
   || String.eqb m http.MethodPut
   || String.eqb m http.MethodDelete
   || String.eqb m http.MethodPatch)%bool = true
  <-> In m [http.MethodGet; http.MethodPost; http.MethodPut; http.MethodDelete; http.MethodPatch].
Proof.
  rewrite !orb_true_iff, !String.eqb_eq. simpl. intuition congruence.
Qed.

(** [NewHTTPServer] gets past its registration loop exactly when every
    route carries one of the five methods, written as the constants of
    [net/http] write them; the table it then listens with is the list of
    routes it was given, in the same order. *)
Theorem NewHTTPServer_accepts_iff_methods_known {H : Type} (routes : list (Route H)) :
  (Forall (fun r => In (Method r)
             [http.MethodGet; http.MethodPost; http.MethodPut; http.MethodDelete; http.MethodPatch])
          routes ->
   NewHTTPServer_routes routes = inr routes) /\
  (forall table,
     NewHTTPServer_routes routes = inr table ->
     table = routes /\
     Forall (fun r => In (Method r)
               [http.MethodGet; http.MethodPost; http.MethodPut; http.MethodDelete; http.MethodPatch])
            routes).
Proof.
  induction routes as [|r routes [IHa IHb]]; split.
  - reflexivity.
  - intros table E. injection E as <-. split; [reflexivity|constructor].
  - intros F. inversion F as [|? ? A F']; subst.
    cbn [NewHTTPServer_routes].
    apply method_check_spec in A. rewrite A. now rewrite (IHa F').
  - intros table E. cbn [NewHTTPServer_routes] in E.
    destruct (_ || _)%bool eqn:A in E; [|discriminate].
    apply method_check_spec in A.
    destruct (NewHTTPServer_routes routes) as [err|t]; [discriminate|].
    injection E as <-. destruct (IHb t eq_refl) as [-> F].
    split; [reflexivity|now constructor].
Qed.

(** When [NewHTTPServer] stops with an error, the error is
    "invalid method m" for the method [m] of the first route whose
    method is not one of the five; the routes before it were accepted. *)
Theorem NewHTTPServer_rejects_first_unknown_method {H : Type}
        (routes : list (Route H)) (err : Err) :
  NewHTTPServer_routes routes = inl err ->
  exists pre r post,
    routes = (pre ++ r :: post)%list /\
    Forall (fun r => In (Method r)
              [http.MethodGet; http.MethodPost; http.MethodPut; http.MethodDelete; http.MethodPatch])
           pre /\
    ~ In (Method r)
         [http.MethodGet; http.MethodPost; http.MethodPut; http.MethodDelete; http.MethodPatch] /\
    err = errorString ("invalid method " ++ Method r).
Proof.
  induction routes as [|r routes IH]; intros E; [discriminate|].
  cbn [NewHTTPServer_routes] in E.
  destruct (_ || _)%bool eqn:A in E.
  - apply method_check_spec in A.
    destruct (NewHTTPServer_routes routes) as [e|t]; [|discriminate].
    injection E as ->. destruct (IH eq_refl) as (pre & x & post & -> & F & N & ->).
    exists (r :: pre), x, post. repeat split; [now constructor|exact N].
  - injection E as <-. exists [], r, routes.
    repeat split; [constructor|].
    intros I. apply method_check_spec in I. congruence.
Qed.

(** ** The dispatch loop over any connection *)

Section DispatchAnyConnection.
Context {C : Type} `{Connection C}.

Lemma catalog_at_succ (c : C) (k : nat) :
  catalog_at (snd (List c)) k = catalog_at c (S k).
Proof.
  unfold catalog_at.
  now rewrite (Nat.iter_succ_r k (fun c => snd (List c)) c).
Qed.

(** The loop over a connection that may change between reads: either
    every line item was passed to [Services.Webhook] and each call
    returned [nil], or the loop stopped at a line item, the first whose
    SKU was in the list read for it. Each call read the catalog once. *)
Lemma range_LineItems_run (items : list LineItem) (w : World C) :
  (fst (range_LineItems items w) = None /\
   trace (snd (range_LineItems items w)) = (trace w ++ calls (map Sku items))%list /\
   database (services (snd (range_LineItems items w)))
   = Nat.iter (length items) (fun c => snd (List c)) (database (services w)) /\
   (forall k i, items !! k = Some i ->
      ~ In (Sku i) (catalog_at (database (services w)) k)))
  \/
  (exists pre x post,
     items = (pre ++ x :: post)%list /\
     fst (range_LineItems items w) = errors.New "Found wanted sku" /\
     trace (snd (range_LineItems items w))
     = (trace w ++ calls (map Sku pre) ++ [Call_Webhook (Sku x); Found (Sku x)])%list /\
     database (services (snd (range_LineItems items w)))
     = Nat.iter (S (length pre)) (fun c => snd (List c)) (database (services w)) /\
     In (Sku x) (catalog_at (database (services w)) (length pre)) /\
     (forall k i, pre !! k = Some i ->
        ~ In (Sku i) (catalog_at (database (services w)) k))).
Proof.
  revert w. induction items as [|i items IH]; intros w.
  - left. simpl. rewrite app_nil_r. repeat split. intros k i E. discriminate E.
  - cbn [range_LineItems]. unfold mbind, M_bind.
    destruct (List (database (services w))) as [[skus e] c'] eqn:L.
    assert (Ec : c' = snd (List (database (services w)))) by now rewrite L.
    assert (E0 : catalog_at (database (services w)) 0 = skus)
      by (unfold catalog_at; simpl; now rewrite L).
    destruct (in_dec String.string_dec (Sku i) skus) as [I|N].
    + right. exists [], i, items.
      rewrite (Webhook_found _ w skus e c' L I). simpl.
      repeat split; [exact Ec|now rewrite E0|].
      intros k j E. discriminate E.
    + rewrite (Webhook_missing _ w skus e c' L N).
      destruct (IH (mkWorld (mkServices c') (trace w ++ [Call_Webhook (Sku i)])))
        as [(E & T & D & Q)|(pre & x & post & -> & E & T & D & I & Q)].
      * left. rewrite E, T, D. simpl. rewrite <- app_assoc.
        repeat split.
        -- rewrite Ec. symmetry.
           exact (Nat.iter_succ_r (length items) (fun c => snd (List c)) _).
        -- intros [|k] j Ej.
           ++ injection Ej as <-. now rewrite E0.
           ++ rewrite <- catalog_at_succ, <- Ec. exact (Q k j Ej).
      * right. exists (i :: pre), x, post. rewrite E, T, D. simpl.
        rewrite <- app_assoc. repeat split.
        -- rewrite Ec. symmetry.
           exact (Nat.iter_succ_r (S (length pre)) (fun c => snd (List c)) _).
        -- rewrite <- catalog_at_succ, <- Ec. exact I.
        -- intros [|k] j Ej.
           ++ injection Ej as <-. now rewrite E0.
           ++ rewrite <- catalog_at_succ, <- Ec. exact (Q k j Ej).
Qed.

(** Whatever the connection does, one run of the dispatch loop prints at
    most one notification, a printed notification is the one of a line
    item of the request, and the loop returns [nil] exactly when it
    printed nothing. *)
Theorem dispatch_at_most_one_notification (items : list LineItem) (w : World C) :
  exists evs,
    trace (snd (range_LineItems items w)) = (trace w ++ evs)%list /\
    (length (notifications evs) <= 1)%nat /\
    (forall line, In line (notifications evs) ->
       exists x, In x items /\ line = fmt.Sprintln ["Found wanted sku:"; Sku x]) /\
    (notifications evs = [] <-> fst (range_LineItems items w) = None).
Proof.
  destruct (range_LineItems_run items w)
    as [(E & T & _)|(pre & x & post & -> & E & T & _)].
  - exists (calls (map Sku items)). rewrite E, notifications_calls.
    repeat split; try assumption; simpl; try lia.
  - exists (calls (map Sku pre) ++ [Call_Webhook (Sku x); Found (Sku x)])%list.
    rewrite E, notifications_app, notifications_calls. simpl.
    repeat split; try assumption; try lia; try discriminate.
    intros line [<-|[]]. exists x. split; [|reflexivity].
    apply in_or_app. right. now left.
Qed.

(** When the dispatch loop returns [nil], every line item was passed to
    [Services.Webhook], in the order of the request and once each,
    nothing was printed, and the catalog was read once per line item. *)
Theorem dispatch_nil_dispatches_all (items : list LineItem) (w : World C) :
  fst (range_LineItems items w) = None ->
  trace (snd (range_LineItems items w)) = (trace w ++ calls (map Sku items))%list /\
  webhook_calls (trace (snd (range_LineItems items w)))
  = (webhook_calls (trace w) ++ map Sku items)%list /\
  notifications (trace (snd (range_LineItems items w))) = notifications (trace w) /\
  database (services (snd (range_LineItems items w)))
  = Nat.iter (length items) (fun c => snd (List c)) (database (services w)).
Proof.
  intros E.
  destruct (range_LineItems_run items w)
    as [(_ & T & D & _)|(pre & x & post & _ & E' & _)];
    [|unfold errors.New in E'; congruence].
  rewrite T, D, webhook_calls_app, webhook_calls_calls.
  rewrite notifications_app, notifications_calls, app_nil_r.
  repeat split.
Qed.

(** Over a connection whose catalog may change from read to read, the
    dispatch loop returns [nil] exactly when no line item is in the list
    read for it: line item number [k] is checked against read number
    [k]. *)
Theorem dispatch_nil_iff_no_item_in_its_read (items : list LineItem) (w : World C) :
  fst (range_LineItems items w) = None
  <-> forall k i, items !! k = Some i ->
        ~ In (Sku i) (catalog_at (database (services w)) k).
Proof.
  destruct (range_LineItems_run items w)
    as [(E & _ & _ & Q)|(pre & x & post & -> & E & _ & _ & I & _)].
  - split; [intros _; exact Q|intros _; exact E].
  - split.
    + intros N. unfold errors.New in E. congruence.
    + intros Q. exfalso. apply (Q (length pre) x); [|exact I].
      apply list_lookup_middle. reflexivity.
Qed.

(** Over any connection, when the dispatch loop returns an error it is
    "Found wanted sku", returned at the first line item that is in the
    list read for it: the line items before were passed to
    [Services.Webhook] without a match, that one is the only one
    printed, the line items after it are neither passed on nor is the
    catalog read for them. *)
Theorem dispatch_error_stops_at_first_match (items : list LineItem) (w : World C) :
  fst (range_LineItems items w) <> None ->
  exists pre x post,
    items = (pre ++ x :: post)%list /\
    fst (range_LineItems items w) = errors.New "Found wanted sku" /\
    In (Sku x) (catalog_at (database (services w)) (length pre)) /\
    (forall k i, pre !! k = Some i ->
       ~ In (Sku i) (catalog_at (database (services w)) k)) /\
    webhook_calls (trace (snd (range_LineItems items w)))
    = (webhook_calls (trace w) ++ map Sku pre ++ [Sku x])%list /\
    notifications (trace (snd (range_LineItems items w)))
    = (notifications (trace w) ++ [fmt.Sprintln ["Found wanted sku:"; Sku x]])%list /\
    database (services (snd (range_LineItems items w)))
    = Nat.iter (S (length pre)) (fun c => snd (List c)) (database (services w)).
Proof.
  intros N.
  destruct (range_LineItems_run items w)
    as [(E & _)|(pre & x & post & -> & E & T & D & I & Q)]; [contradiction|].
  exists pre, x, post. rewrite T, D.
  rewrite !webhook_calls_app, webhook_calls_calls.
  rewrite !notifications_app, notifications_calls.
  repeat split; assumption.
Qed.

End DispatchAnyConnection.

(** ** The length of a signature *)

Lemma be_bytes_length (n : nat) (x : Z) : length (sha256.be_bytes n x) = n.
Proof. induction n as [|n IH]; simpl; [reflexivity|now rewrite IH]. Qed.

Lemma block1_length (h : list Z) (p : bytes) :
  length h = 8%nat -> length (sha256.block1 h p) = 8%nat.
Proof.
  intros L. unfold sha256.block1.
  rewrite List.length_map, List.length_combine, L. reflexivity.
Qed.

Lemma block_length (n : nat) (h : list Z) (p : bytes) :
  length h = 8%nat -> length (sha256.block n h p) = 8%nat.
Proof.
  revert h p. induction n as [|n IH]; intros h p L; cbn [sha256.block]; [exact L|].
  destruct (sha256.chunk <=? length p)%nat; [|exact L].
  apply IH. now apply block1_length.
Qed.

Lemma flat_map_be_bytes_length (l : list Z) :
  length (flat_map (sha256.be_bytes 4) l) = (4 * length l)%nat.
Proof.
  induction l as [|x l IH]; [reflexivity|].
  cbn [flat_map]. rewrite List.length_app, be_bytes_length, IH. simpl. lia.
Qed.

(** A SHA-256 digest has 32 bytes, whatever the message. *)
Lemma Sum256_length (msg : bytes) : length (sha256.Sum256 msg) = 32%nat.
Proof.
  unfold sha256.Sum256. cbv zeta.
  rewrite flat_map_be_bytes_length, block_length; reflexivity.
Qed.

Lemma EncodeToString_length (src : bytes) :
  String.length (base64.EncodeToString src) = (4 * ((length src + 2) / 3))%nat.
Proof.
  remember (length src) as n eqn:Hn. revert src Hn.
  induction n as [n IH] using lt_wf_ind. intros src Hn.
  destruct src as [|b0 [|b1 [|b2 rest]]]; subst n; try reflexivity.
  cbn [base64.EncodeToString String.length].
  rewrite (IH (length rest)); [|simpl; lia|reflexivity].
  cbn [length].
  replace (S (S (S (length rest))) + 2)%nat with (length rest + 2 + 1 * 3)%nat by lia.
  rewrite Nat.div_add by lia. lia.
Qed.

(** The signature expected for a body has 44 characters, whatever the
    secret and the body. *)
Lemma expected_signature_length (secret : string) (body : bytes) :
  String.length (expected_signature secret body) = 44%nat.
Proof.
  unfold expected_signature, HMAC_SHA256, hmac.Sum.
  now rewrite EncodeToString_length, Sum256_length.
Qed.

(** ** Every way the handler ends *)

Section HandlerOutcomes.
Context {C : Type} `{Connection C}.
Variable BodyParser : Ctx -> Err + Body.

Lemma webhook_handler_unparsed (c : Ctx) (w : World C) (err : Err) :
  signature_block Signature (Request_Body c) (presented_signature c) = true ->
  BodyParser c = inl err ->
  webhook_handler BodyParser c w = ((Some err, c), w).
Proof.
  intros V P. unfold presented_signature in V.
  unfold webhook_handler. cbv zeta. now rewrite V, P.
Qed.

Lemma respond_rejected (c : Ctx) (w : World C) :
  signature_block Signature (Request_Body c) (presented_signature c) = false ->
  webhook_handler BodyParser c w = (SendStatus c http.StatusUnauthorized, w) /\
  Response_Status (fst (respond (webhook_handler BodyParser) c w)) = 401 /\
  snd (respond (webhook_handler BodyParser) c w) = w.
Proof.
  intros V.
  rewrite respond_run, (webhook_handler_rejected BodyParser c w V). simpl. tauto.
Qed.

(** A request that carries no [X-Shopify-Hmac-Sha256] header is
    answered 401 whatever its body, and leaves the world as it was: the
    map lookup gives the empty string, which is no digest. *)
Theorem missing_signature_header_unauthorized (c : Ctx) (w : World C) :
  GetReqHeaders c !! "X-Shopify-Hmac-Sha256" = None ->
  webhook_handler BodyParser c w = (SendStatus c http.StatusUnauthorized, w) /\
  Response_Status (fst (respond (webhook_handler BodyParser) c w)) = 401 /\
  snd (respond (webhook_handler BodyParser) c w) = w.
Proof.
  intros N. apply respond_rejected.
  destruct (signature_block _ _ _) eqn:V; [|reflexivity].
  apply signature_block_spec in V.
  apply (f_equal String.length) in V.
  rewrite expected_signature_length in V.
  unfold presented_signature, map_index in V. rewrite N in V. discriminate V.
Qed.

(** A presented signature that does not have 44 characters is answered
    401 whatever the body, and leaves the world as it was. *)
Theorem wrong_length_signature_unauthorized (c : Ctx) (w : World C) :
  String.length (presented_signature c) <> 44%nat ->
  webhook_handler BodyParser c w = (SendStatus c http.StatusUnauthorized, w) /\
  Response_Status (fst (respond (webhook_handler BodyParser) c w)) = 401 /\
  snd (respond (webhook_handler BodyParser) c w) = w.
Proof.
  intros N. apply respond_rejected.
  destruct (signature_block _ _ _) eqn:V; [|reflexivity].
  apply signature_block_spec in V.
  rewrite V, expected_signature_length in N. contradiction.
Qed.


(** The handler ends in one of four ways, over any connection and any
    decoder: 401 with nothing done; the decoder's error with nothing
    done; 200 after every line item was passed to [Services.Webhook]
    and none was printed; or the error "Found wanted sku" with the
    response untouched, after the line items up to the first match were
    passed on and that one match was printed. *)
Theorem webhook_handler_outcomes (c : Ctx) (w : World C) :
  (signature_block Signature (Request_Body c) (presented_signature c) = false /\
   webhook_handler BodyParser c w = (SendStatus c http.StatusUnauthorized, w))
  \/
  (signature_block Signature (Request_Body c) (presented_signature c) = true /\
   exists err, BodyParser c = inl err /\
     webhook_handler BodyParser c w = ((Some err, c), w))
  \/
  (signature_block Signature (Request_Body c) (presented_signature c) = true /\
   exists body, BodyParser c = inr body /\
     fst (webhook_handler BodyParser c w) = SendStatus c http.StatusOK /\
     trace (snd (webhook_handler BodyParser c w))
     = (trace w ++ calls (map Sku (LineItems body)))%list)
  \/
  (signature_block Signature (Request_Body c) (presented_signature c) = true /\
   exists body pre x post, BodyParser c = inr body /\
     LineItems body = (pre ++ x :: post)%list /\
     fst (webhook_handler BodyParser c w) = (errors.New "Found wanted sku", c) /\
     trace (snd (webhook_handler BodyParser c w))
     = (trace w ++ calls (map Sku pre) ++ [Call_Webhook (Sku x); Found (Sku x)])%list).
Proof.
  destruct (signature_block _ _ _) eqn:V.
  - right. destruct (BodyParser c) as [err|body] eqn:P.
    + left. split; [reflexivity|]. exists err. split; [reflexivity|].
      exact (webhook_handler_unparsed c w err V P).
    + right. rewrite (webhook_handler_accepted BodyParser c w body V P).
      cbn [fst snd].
      destruct (range_LineItems_run (LineItems body) w)
        as [(E & T & _)|(pre & x & post & I & E & T & _)].
      * left. split; [reflexivity|]. exists body. rewrite E, T. repeat split.
      * right. split; [reflexivity|]. exists body, pre, x, post.
        rewrite E, T. repeat split. exact I.
  - left. split; [reflexivity|]. exact (webhook_handler_rejected BodyParser c w V).
Qed.

(** The response and the events of a request are decided by the request
    and the list the catalog returns: not by the trace so far, not by
    the error that comes with the list, not by the service the world
    holds. *)
Lemma respond_frame (c : Ctx) (skus : list string) :
  exists r evs,
    forall (s : Services C) (e : error) (t : list event),
      List (database s) = ((skus, e), database s) ->
      respond (webhook_handler BodyParser) c (mkWorld s t) = (r, mkWorld s (t ++ evs)).
Proof.
  destruct (signature_block Signature (Request_Body c) (presented_signature c)) eqn:V.
  - destruct (BodyParser c) as [err|body] eqn:P.
    + exists (DefaultErrorHandler c err), []. intros s e t L.
      rewrite respond_run, (webhook_handler_unparsed c _ err V P). simpl.
      now rewrite app_nil_r.
    + destruct (first_match_split skus (LineItems body))
        as [F|(pre & x & post & E & F & I)].
      * exists (snd (SendStatus c http.StatusOK)), (calls (map Sku (LineItems body))).
        intros s e t L.
        exact (respond_no_match BodyParser c (mkWorld s t) body skus e L V P F).
      * exists (DefaultErrorHandler c (errorString "Found wanted sku")),
          (calls (map Sku pre) ++ [Call_Webhook (Sku x); Found (Sku x)])%list.
        intros s e t L.
        exact (respond_first_match BodyParser c (mkWorld s t) body skus e pre x post
                 L V P E F I).
  - exists (snd (SendStatus c http.StatusUnauthorized)), []. intros s e t L.
    rewrite respond_run, (webhook_handler_rejected BodyParser c _ V). simpl.
    now rewrite app_nil_r.
Qed.

(** The handler keeps nothing between requests: when the catalog is
    read without change, the same request delivered a second time gets
    the same response and produces the same events again, a notification
    included. *)
Theorem redelivery_repeats_notification
        (c : Ctx) (w : World C) (skus : list string) (e : error) :
  reads_catalog w skus e ->
  exists evs,
    trace (snd (respond (webhook_handler BodyParser) c w)) = (trace w ++ evs)%list /\
    fst (respond (webhook_handler BodyParser) c (snd (respond (webhook_handler BodyParser) c w)))
    = fst (respond (webhook_handler BodyParser) c w) /\
    trace (snd (respond (webhook_handler BodyParser) c
                  (snd (respond (webhook_handler BodyParser) c w))))
    = (trace w ++ evs ++ evs)%list.
Proof.
  intros R. destruct (respond_frame c skus) as (r & evs & F).
  destruct w as [s t]. unfold reads_catalog in R. simpl in R.
  exists evs. rewrite (F s e t R). cbn [fst snd trace].
  rewrite (F s e (t ++ evs)%list R). cbn [fst snd trace].
  split; [reflexivity|]. split; [reflexivity|].
  symmetry. apply app_assoc.
Qed.

(** Two worlds whose catalogs return the same list answer a request
    alike and add the same events, whatever their traces and whatever
    error comes with the list. *)
Theorem response_depends_on_catalog_only
        (c : Ctx) (w1 w2 : World C) (skus : list string) (e1 e2 : error) :
  reads_catalog w1 skus e1 ->
  reads_catalog w2 skus e2 ->
  fst (respond (webhook_handler BodyParser) c w1)
  = fst (respond (webhook_handler BodyParser) c w2) /\
  exists evs,
    trace (snd (respond (webhook_handler BodyParser) c w1)) = (trace w1 ++ evs)%list /\
    trace (snd (respond (webhook_handler BodyParser) c w2)) = (trace w2 ++ evs)%list.
Proof.
  intros R1 R2. destruct (respond_frame c skus) as (r & evs & F).
  destruct w1 as [s1 t1], w2 as [s2 t2]. unfold reads_catalog in R1, R2. simpl in R1, R2.
  rewrite (F s1 e1 t1 R1), (F s2 e2 t2 R2). cbn [fst snd trace].
  split; [reflexivity|]. exists evs. split; reflexivity.
Qed.

End HandlerOutcomes.

(** ** The further properties on concrete inputs *)

(** The route table of [main] is accepted. *)
Lemma NewHTTPServer_accepts_iff_methods_known_witness :
  NewHTTPServer_routes (routes (C:=MemConnection) json_BodyParser)
  = inr (routes json_BodyParser).
Proof.
  apply (proj1 (NewHTTPServer_accepts_iff_methods_known (routes json_BodyParser))).
  unfold routes, NewHTTPRoute.
  constructor; [cbn [Method]; simpl; tauto|].
  constructor; [cbn [Method]; simpl; tauto|].
  constructor.
Defined.

(** A method in lower case is not one of the five. *)
Lemma NewHTTPServer_rejects_first_unknown_method_witness :
  exists pre r post,
    [mkRoute "GET" "/ping" tt; mkRoute "post" "/webhook" tt; mkRoute "HEAD" "/" tt]
    = (pre ++ r :: post)%list /\
    Forall (fun r => In (Method r)
              [http.MethodGet; http.MethodPost; http.MethodPut; http.MethodDelete; http.MethodPatch])
           pre /\
    ~ In (Method r)
         [http.MethodGet; http.MethodPost; http.MethodPut; http.MethodDelete; http.MethodPatch] /\
    errorString "invalid method post" = errorString ("invalid method " ++ Method r).
Proof.
  apply (NewHTTPServer_rejects_first_unknown_method
           [mkRoute "GET" "/ping" tt; mkRoute "post" "/webhook" tt; mkRoute "HEAD" "/" tt]
           (errorString "invalid method post")).
  reflexivity.
Defined.

Lemma missing_signature_header_unauthorized_witness :
  webhook_handler json_BodyParser unsigned_purchase main_world
  = (SendStatus unsigned_purchase http.StatusUnauthorized, main_world) /\
  Response_Status (fst (respond (webhook_handler json_BodyParser) unsigned_purchase main_world))
  = 401 /\
  snd (respond (webhook_handler json_BodyParser) unsigned_purchase main_world) = main_world.
Proof.
  apply (missing_signature_header_unauthorized json_BodyParser unsigned_purchase main_world).
  vm_compute. reflexivity.
Defined.

Lemma wrong_length_signature_unauthorized_witness :
  webhook_handler json_BodyParser forged_purchase main_world
  = (SendStatus forged_purchase http.StatusUnauthorized, main_world) /\
  Response_Status (fst (respond (webhook_handler json_BodyParser) forged_purchase main_world))
  = 401 /\
  snd (respond (webhook_handler json_BodyParser) forged_purchase main_world) = main_world.
Proof.
  apply (wrong_length_signature_unauthorized json_BodyParser forged_purchase main_world).
  vm_compute. discriminate.
Defined.


(** Over a catalog that changes between the two reads. *)
Lemma dispatch_nil_dispatches_all_witness :
  trace (snd (range_LineItems [mkLineItem "SKU-B"; mkLineItem "SKU-A"] scripted_world))
  = (trace scripted_world ++ calls (map Sku [mkLineItem "SKU-B"; mkLineItem "SKU-A"]))%list /\
  webhook_calls (trace (snd (range_LineItems [mkLineItem "SKU-B"; mkLineItem "SKU-A"] scripted_world)))
  = (webhook_calls (trace scripted_world) ++ map Sku [mkLineItem "SKU-B"; mkLineItem "SKU-A"])%list /\
  notifications (trace (snd (range_LineItems [mkLineItem "SKU-B"; mkLineItem "SKU-A"] scripted_world)))
  = notifications (trace scripted_world) /\
  database (services (snd (range_LineItems [mkLineItem "SKU-B"; mkLineItem "SKU-A"] scripted_world)))
  = Nat.iter (length [mkLineItem "SKU-B"; mkLineItem "SKU-A"]) (fun c => snd (List c))
      (database (services scripted_world)).
Proof.
  apply (dispatch_nil_dispatches_all [mkLineItem "SKU-B"; mkLineItem "SKU-A"] scripted_world).
  vm_compute. reflexivity.
Defined.

Lemma redelivery_repeats_notification_witness :
  exists evs,
    trace (snd (respond (webhook_handler json_BodyParser) catalog_purchase main_world))
    = (trace main_world ++ evs)%list /\
    fst (respond (webhook_handler json_BodyParser) catalog_purchase
           (snd (respond (webhook_handler json_BodyParser) catalog_purchase main_world)))
    = fst (respond (webhook_handler json_BodyParser) catalog_purchase main_world) /\
    trace (snd (respond (webhook_handler json_BodyParser) catalog_purchase
                  (snd (respond (webhook_handler json_BodyParser) catalog_purchase main_world))))
    = (trace main_world ++ evs ++ evs)%list.
Proof.
  apply (redelivery_repeats_notification json_BodyParser catalog_purchase main_world
           ["SKU2006-001"; "SKU2006-002"; "SKU2006-003"] None).
  reflexivity.
Defined.

Lemma response_depends_on_catalog_only_witness :
  fst (respond (webhook_handler json_BodyParser) catalog_purchase main_world)
  = fst (respond (webhook_handler json_BodyParser) catalog_purchase later_world) /\
  exists evs,
    trace (snd (respond (webhook_handler json_BodyParser) catalog_purchase main_world))
    = (trace main_world ++ evs)%list /\
    trace (snd (respond (webhook_handler json_BodyParser) catalog_purchase later_world))
    = (trace later_world ++ evs)%list.
Proof.
  apply (response_depends_on_catalog_only json_BodyParser catalog_purchase
           main_world later_world ["SKU2006-001"; "SKU2006-002"; "SKU2006-003"] None None).
  - reflexivity.
  - reflexivity.
Defined.

(** Over a catalog that holds "SKU-B" at the second read only: the first
    line item passes, the second is the match. *)
Lemma dispatch_error_stops_at_first_match_witness :
  exists pre x post,
    [mkLineItem "SKU-B"; mkLineItem "SKU-B"; mkLineItem "SKU-A"] = (pre ++ x :: post)%list /\
    fst (range_LineItems [mkLineItem "SKU-B"; mkLineItem "SKU-B"; mkLineItem "SKU-A"]
           scripted_world)
    = errors.New "Found wanted sku" /\
    In (Sku x) (catalog_at (database (services scripted_world)) (length pre)) /\
    (forall k i, pre !! k = Some i ->
       ~ In (Sku i) (catalog_at (database (services scripted_world)) k)) /\
    webhook_calls
      (trace (snd (range_LineItems [mkLineItem "SKU-B"; mkLineItem "SKU-B"; mkLineItem "SKU-A"]
                     scripted_world)))
    = (webhook_calls (trace scripted_world) ++ map Sku pre ++ [Sku x])%list /\
    notifications
      (trace (snd (range_LineItems [mkLineItem "SKU-B"; mkLineItem "SKU-B"; mkLineItem "SKU-A"]
                     scripted_world)))
    = (notifications (trace scripted_world) ++ [fmt.Sprintln ["Found wanted sku:"; Sku x]])%list /\
    database
      (services (snd (range_LineItems [mkLineItem "SKU-B"; mkLineItem "SKU-B"; mkLineItem "SKU-A"]
                        scripted_world)))
    = Nat.iter (S (length pre)) (fun c => snd (List c)) (database (services scripted_world)).
Proof.
  apply (dispatch_error_stops_at_first_match
           [mkLineItem "SKU-B"; mkLineItem "SKU-B"; mkLineItem "SKU-A"] scripted_world).
  vm_compute. discriminate.
Defined.

Example scripted_dispatch :
  range_LineItems [mkLineItem "SKU-B"; mkLineItem "SKU-B"; mkLineItem "SKU-A"] scripted_world
  = (errors.New "Found wanted sku",
     mkWorld (mkServices (mkScriptedConnection []))
             [Call_Webhook "SKU-B"; Call_Webhook "SKU-B"; Found "SKU-B"]).
Proof. vm_compute. reflexivity. Qed.
